(** * HapSNPeval: haplotype reconstruction accuracy

    A shallow embedding of [HapSNPeval.cpp] (one translation unit, one
    function [main]) and the properties of its three phases:

    - option parsing and the exit code ([parse_option], [main]);
    - the FASTA reading loop ([read_line], [read_alignment]);
    - the column classifier ([column_step], [iterations], [classify]).

    Conventions.  A [std::string] is a [string]; a [char] an [ascii].  The
    [unsigned long] counters are [Z] with the 64-bit wrap-around of [++]
    written out in [incr].  The [unsigned short] variables [test_one_id],
    [test_two_id] and [record_num] and the [int] [helpflag] only ever hold
    the literals the program stores, and are [Z].  [getopt_long] and the
    [ifstream] are outside the program: what they deliver is an input. *)

From Stdlib Require Import String Ascii List ZArith Lia Bool Arith Sorted.
Import ListNotations.

Local Open Scope string_scope.
Local Open Scope Z_scope.

(** ** Characters and strings *)

(** The gap symbol ['-']. *)
Definition gap : ascii := "-"%char.

(** The header marker ['>']. *)
Definition marker : ascii := ">"%char.

(** [s[i]] on a [std::string]: the character at [i] below [s.size()], the
    null character at [i = s.size()], and undefined behaviour ([None])
    beyond. *)
Definition subscript (s : string) (i : nat) : option ascii :=
  match String.get i s with
  | Some c => Some c
  | None => if Nat.eqb i (String.length s) then Some Ascii.zero else None
  end.

(** ** Classifier state

    The local variables of [main] that the column loop reads and writes,
    and what it has sent to [cout]. *)

Inductive message : Type :=
| FalseIndel (position : Z)
| FalseSNP (position : Z)
| TestOneSwitches (position : Z)
| TestTwoSwitches (position : Z)
| TestOneNoMatch (position : Z)
| TestTwoNoMatch (position : Z)
| TrueIndel (position : Z)
| FalseSNPDueToOne (position : Z)
| FalseSNPDueToTwo (position : Z).

Record state : Type := mkState {
  test_one_id : Z;
  test_two_id : Z;
  test_one_switches : Z;
  test_two_switches : Z;
  test_one_false_snps : Z;
  test_two_false_snps : Z;
  test_one_false_indels : Z;
  test_two_false_indels : Z;
  test_one_bad_calls : Z;
  test_two_bad_calls : Z;
  cout : list message
}.

Definition initial_state : state :=
  mkState 0 0 0 0 0 0 0 0 0 0 [].

(** [x++] on an [unsigned long]. *)
Definition incr (x : Z) : Z := (x + 1) mod 2 ^ 64.
Arguments incr : simpl never.

Definition set_test_one_id (v : Z) (st : state) : state :=
  mkState v (test_two_id st)
    (test_one_switches st) (test_two_switches st)
    (test_one_false_snps st) (test_two_false_snps st)
    (test_one_false_indels st) (test_two_false_indels st)
    (test_one_bad_calls st) (test_two_bad_calls st) (cout st).

Definition set_test_two_id (v : Z) (st : state) : state :=
  mkState (test_one_id st) v
    (test_one_switches st) (test_two_switches st)
    (test_one_false_snps st) (test_two_false_snps st)
    (test_one_false_indels st) (test_two_false_indels st)
    (test_one_bad_calls st) (test_two_bad_calls st) (cout st).

Definition incr_test_one_switches (st : state) : state :=
  mkState (test_one_id st) (test_two_id st)
    (incr (test_one_switches st)) (test_two_switches st)
    (test_one_false_snps st) (test_two_false_snps st)
    (test_one_false_indels st) (test_two_false_indels st)
    (test_one_bad_calls st) (test_two_bad_calls st) (cout st).

Definition incr_test_two_switches (st : state) : state :=
  mkState (test_one_id st) (test_two_id st)
    (test_one_switches st) (incr (test_two_switches st))
    (test_one_false_snps st) (test_two_false_snps st)
    (test_one_false_indels st) (test_two_false_indels st)
    (test_one_bad_calls st) (test_two_bad_calls st) (cout st).

Definition incr_test_one_false_snps (st : state) : state :=
  mkState (test_one_id st) (test_two_id st)
    (test_one_switches st) (test_two_switches st)
    (incr (test_one_false_snps st)) (test_two_false_snps st)
    (test_one_false_indels st) (test_two_false_indels st)
    (test_one_bad_calls st) (test_two_bad_calls st) (cout st).

Definition incr_test_two_false_snps (st : state) : state :=
  mkState (test_one_id st) (test_two_id st)
    (test_one_switches st) (test_two_switches st)
    (test_one_false_snps st) (incr (test_two_false_snps st))
    (test_one_false_indels st) (test_two_false_indels st)
    (test_one_bad_calls st) (test_two_bad_calls st) (cout st).

Definition incr_test_one_false_indels (st : state) : state :=
  mkState (test_one_id st) (test_two_id st)
    (test_one_switches st) (test_two_switches st)
    (test_one_false_snps st) (test_two_false_snps st)
    (incr (test_one_false_indels st)) (test_two_false_indels st)
    (test_one_bad_calls st) (test_two_bad_calls st) (cout st).

Definition incr_test_two_false_indels (st : state) : state :=
  mkState (test_one_id st) (test_two_id st)
    (test_one_switches st) (test_two_switches st)
    (test_one_false_snps st) (test_two_false_snps st)
    (test_one_false_indels st) (incr (test_two_false_indels st))
    (test_one_bad_calls st) (test_two_bad_calls st) (cout st).

Definition incr_test_one_bad_calls (st : state) : state :=
  mkState (test_one_id st) (test_two_id st)
    (test_one_switches st) (test_two_switches st)
    (test_one_false_snps st) (test_two_false_snps st)
    (test_one_false_indels st) (test_two_false_indels st)
    (incr (test_one_bad_calls st)) (test_two_bad_calls st) (cout st).

Definition incr_test_two_bad_calls (st : state) : state :=
  mkState (test_one_id st) (test_two_id st)
    (test_one_switches st) (test_two_switches st)
    (test_one_false_snps st) (test_two_false_snps st)
    (test_one_false_indels st) (test_two_false_indels st)
    (test_one_bad_calls st) (incr (test_two_bad_calls st)) (cout st).

(** [if (position_output_flag) cout << ... << endl;] *)
Definition report (position_output_flag : bool) (m : message) (st : state)
  : state :=
  if position_output_flag then
    mkState (test_one_id st) (test_two_id st)
      (test_one_switches st) (test_two_switches st)
      (test_one_false_snps st) (test_two_false_snps st)
      (test_one_false_indels st) (test_two_false_indels st)
      (test_one_bad_calls st) (test_two_bad_calls st) (cout st ++ [m])
  else st.

(** ** One column of the alignment

    The body of the [for] loop at index [i], given the four characters
    [true_one[i]], [true_two[i]], [test_one[i]] and [test_two[i]].  The
    reported position [i+1] cannot wrap: [i] is below a [size_t] length. *)

Section Column.

Variable position_output_flag : bool.
Variable i : nat.
Variables t1 t2 e1 e2 : ascii.

Let position : Z := Z.of_nat i + 1.

(** [true_one[i] == true_two[i]]. *)
Definition homozygous_site (st : state) : state :=
  if ((e1 =? gap) || (e2 =? gap))%char then
    let st :=
      if negb (e1 =? gap)%char then
        report position_output_flag (FalseIndel position)
          (incr_test_one_false_indels st)
      else st in
    if negb (e2 =? gap)%char then
      report position_output_flag (FalseIndel position)
        (incr_test_two_false_indels st)
    else st
  else if negb (e1 =? e2)%char then
    if negb (e1 =? t1)%char then
      report position_output_flag (FalseSNP position)
        (incr_test_one_false_snps st)
    else
      report position_output_flag (FalseSNP position)
        (incr_test_two_false_snps st)
  else st.

(** [true_one[i] != '-' && true_two[i] != '-']: the first test haplotype,
    then the second. *)
Definition heterozygous_snp (st : state) : state :=
  let st :=
    if (e1 =? t1)%char then
      let st :=
        if test_one_id st =? 2 then
          report position_output_flag (TestOneSwitches position)
            (incr_test_one_switches st)
        else st in
      set_test_one_id 1 st
    else if (e1 =? t2)%char then
      let st :=
        if test_one_id st =? 1 then
          report position_output_flag (TestOneSwitches position)
            (incr_test_one_switches st)
        else st in
      set_test_one_id 2 st
    else
      report position_output_flag (TestOneNoMatch position)
        (incr_test_one_bad_calls st) in
  if (e2 =? t1)%char then
    let st :=
      if test_two_id st =? 2 then
        report position_output_flag (TestTwoSwitches position)
          (incr_test_two_switches st)
      else st in
    set_test_two_id 1 st
  else if (e2 =? t2)%char then
    let st :=
      if test_two_id st =? 1 then
        report position_output_flag (TestTwoSwitches position)
          (incr_test_two_switches st)
      else st in
    set_test_two_id 2 st
  else
    report position_output_flag (TestTwoNoMatch position)
      (incr_test_two_bad_calls st).

(** The [else] of the heterozygous SNP test: a true indel. *)
Definition indel (st : state) : state :=
  let st := report position_output_flag (TrueIndel position) st in
  if (negb (e1 =? t1) && negb (e1 =? t2))%char then
    report position_output_flag (FalseSNPDueToOne position)
      (incr_test_one_false_snps st)
  else if (negb (e2 =? t1) && negb (e2 =? t2))%char then
    report position_output_flag (FalseSNPDueToTwo position)
      (incr_test_two_false_snps st)
  else st.

Definition column_step (st : state) : state :=
  if (t1 =? t2)%char then homozygous_site st
  else if (negb (t1 =? gap) && negb (t2 =? gap))%char then heterozygous_snp st
  else indel st.

End Column.

(** Whether the loop body reads [test_two[i]].  The homozygous and the
    heterozygous SNP branches always do; the indel branch reads it in the
    [else if] at line 247 only, which is not evaluated when test
    haplotype 1 matches neither true base. *)
Definition reads_test_two (t1 t2 e1 : ascii) : bool :=
  if (t1 =? t2)%char then true
  else if (negb (t1 =? gap) && negb (t2 =? gap))%char then true
  else negb (negb (e1 =? t1) && negb (e1 =? t2))%char.

(** ** The column loop *)

Section Classifier.

Variables true_one true_two test_one test_two : string.
Variable position_output_flag : bool.

(** The state after the first [n] iterations of
    [for (size_t i = 0; i < true_one.length(); i++)]; [None] when one of
    them subscripts a sequence beyond its end.  Every iteration reads
    [true_one[i]], [true_two[i]] and [test_one[i]]; it reads [test_two[i]]
    when [reads_test_two] says so.  Where it does not, [column_step] does
    not depend on its last character, and is given the null character. *)
Fixpoint iterations (n : nat) : option state :=
  match n with
  | O => Some initial_state
  | S i =>
      match iterations i with
      | None => None
      | Some st =>
          match subscript true_one i, subscript true_two i,
                subscript test_one i with
          | Some t1, Some t2, Some e1 =>
              if reads_test_two t1 t2 e1 then
                match subscript test_two i with
                | Some e2 =>
                    Some (column_step position_output_flag i t1 t2 e1 e2 st)
                | None => None
                end
              else
                Some (column_step position_output_flag i t1 t2 e1
                        Ascii.zero st)
          | _, _, _ => None
          end
      end
  end.

(** The whole loop. *)
Definition classify : option state :=
  iterations (String.length true_one).

End Classifier.

(** ** Reading the alignment *)

(** [s.find(str, pos)]: the lowest index at or after [pos] where [str]
    occurs in [s]; [None] stands for [string::npos]. *)
Definition find (s str : string) (pos : nat) : option nat :=
  String.index pos str s.

(** [s.substr(pos)].  The program calls it at [pos = 1] on a line whose
    first character is ['>'], so [pos > s.size()], which throws, does not
    arise. *)
Definition substr (s : string) (pos : nat) : string :=
  String.substring pos (String.length s - pos) s.

(** The header and sequence variables of [main], and [record_num]. *)
Record alignment : Type := mkAlignment {
  true_one_header : string;
  true_two_header : string;
  test_one_header : string;
  test_two_header : string;
  true_one : string;
  true_two : string;
  test_one : string;
  test_two : string;
  record_num : Z
}.

Definition initial_alignment : alignment :=
  mkAlignment "" "" "" "" "" "" "" "" 0.

(** [line_buffer[0] == '>'].  Subscript 0 is always within reach. *)
Definition is_header (line_buffer : string) : bool :=
  match subscript line_buffer 0 with
  | Some c => (c =? marker)%char
  | None => false
  end.

(** [line_buffer.find(true_prefix, 1) != string::npos]. *)
Definition is_true_record (true_prefix line_buffer : string) : bool :=
  match find line_buffer true_prefix 1 with
  | Some _ => true
  | None => false
  end.

(** The header branch: the line goes to the first slot of its class while
    that slot's header is still empty, to the second slot otherwise. *)
Definition read_header (true_prefix : string) (a : alignment)
  (line_buffer : string) : alignment :=
  if is_true_record true_prefix line_buffer then
    if (true_one_header a =? "")%string then
      mkAlignment (substr line_buffer 1) (true_two_header a)
        (test_one_header a) (test_two_header a)
        (true_one a) (true_two a) (test_one a) (test_two a) 1
    else
      mkAlignment (true_one_header a) (substr line_buffer 1)
        (test_one_header a) (test_two_header a)
        (true_one a) (true_two a) (test_one a) (test_two a) 2
  else
    if (test_one_header a =? "")%string then
      mkAlignment (true_one_header a) (true_two_header a)
        (substr line_buffer 1) (test_two_header a)
        (true_one a) (true_two a) (test_one a) (test_two a) 3
    else
      mkAlignment (true_one_header a) (true_two_header a)
        (test_one_header a) (substr line_buffer 1)
        (true_one a) (true_two a) (test_one a) (test_two a) 4.

(** The sequence branch: [switch (record_num)]. *)
Definition append_line (a : alignment) (line_buffer : string) : alignment :=
  match record_num a with
  | 1 =>
      mkAlignment (true_one_header a) (true_two_header a)
        (test_one_header a) (test_two_header a)
        (true_one a ++ line_buffer) (true_two a) (test_one a) (test_two a)
        (record_num a)
  | 2 =>
      mkAlignment (true_one_header a) (true_two_header a)
        (test_one_header a) (test_two_header a)
        (true_one a) (true_two a ++ line_buffer) (test_one a) (test_two a)
        (record_num a)
  | 3 =>
      mkAlignment (true_one_header a) (true_two_header a)
        (test_one_header a) (test_two_header a)
        (true_one a) (true_two a) (test_one a ++ line_buffer) (test_two a)
        (record_num a)
  | 4 =>
      mkAlignment (true_one_header a) (true_two_header a)
        (test_one_header a) (test_two_header a)
        (true_one a) (true_two a) (test_one a) (test_two a ++ line_buffer)
        (record_num a)
  | _ => a
  end.

(** The body of the reading loop after [getline] has filled
    [line_buffer]. *)
Definition read_line (true_prefix : string) (a : alignment)
  (line_buffer : string) : alignment :=
  if is_header line_buffer then read_header true_prefix a line_buffer
  else append_line a line_buffer.

(** What the [ifstream] delivers to the loop
    [while (input_alignment.good()) { getline(...); ... }]: the contents of
    [line_buffer] after each [getline] (the lines of the file, the last one
    empty when the file ends in a newline), and whether [eof()] holds once
    [good()] has turned false. *)
Record ifstream : Type := mkStream {
  buffers : list string;
  eof : bool
}.

Definition read_lines (true_prefix : string) (lines : list string)
  (a : alignment) : alignment :=
  fold_left (read_line true_prefix) lines a.

Definition read_alignment (true_prefix : string) (input_alignment : ifstream)
  : alignment :=
  read_lines true_prefix (buffers input_alignment) initial_alignment.

(** ** Options and the exit code *)

(** The two long options that store into a flag variable. *)
Inductive long_flag : Type := HelpFlag | PositionOutputFlag.

(** One call of [getopt_long] that did not return -1: either it stored 1
    through the flag pointer of a long option (and returned 0), or it
    returned [optvalue] with [optarg] set or null. *)
Inductive getopt_return : Type :=
| Stored (f : long_flag)
| Returned (optvalue : Z) (optarg : option string).

Record options : Type := mkOptions {
  helpflag : Z;
  position_output_flag : Z;
  true_prefix : string
}.

Definition initial_options : options := mkOptions 0 0 "".

Definition char_code (c : ascii) : Z := Z.of_N (N_of_ascii c).

(** The effect of one [getopt_long] call followed by the [switch]. *)
Definition parse_option (o : options) (r : getopt_return) : options :=
  match r with
  | Stored HelpFlag =>
      mkOptions 1 (position_output_flag o) (true_prefix o)
  | Stored PositionOutputFlag =>
      mkOptions (helpflag o) 1 (true_prefix o)
  | Returned optvalue optarg =>
      if optvalue =? 0 then o
      else if optvalue =? char_code "h" then
        mkOptions 1 (position_output_flag o) (true_prefix o)
      else if optvalue =? char_code "o" then
        mkOptions (helpflag o) 1 (true_prefix o)
      else if optvalue =? char_code "p" then
        match optarg with
        | None => mkOptions 3 (position_output_flag o) (true_prefix o)
        | Some arg => mkOptions (helpflag o) (position_output_flag o) arg
        end
      else
        mkOptions 4 (position_output_flag o) (true_prefix o)
  end.

(** The non-option argument: absent ([optind >= argc]), a path that cannot
    be opened, or a path opened as a stream. *)
Inductive operand : Type :=
| NoOperand
| Unreadable
| Opened (f : ifstream).

(** The state of [input_alignment] after the operand has been handled.  A
    failed [open] leaves a stream that is neither [good()] nor at [eof()];
    a stream never opened yields one empty [getline] and then [eof()]. *)
Definition input_alignment (op : operand) : ifstream :=
  match op with
  | Opened f => f
  | Unreadable => mkStream [] false
  | NoOperand => mkStream [EmptyString] true
  end.

Record invocation : Type := mkInvocation {
  getopt_returns : list getopt_return;
  argument : operand
}.

(** What [main] wrote to [cout]. *)
Inductive printed : Type :=
| UsageText
| Nothing
| Results (st : state).

(** How [main] ends: it returns a status, or its behaviour is undefined
    (a sequence subscripted beyond its end). *)
Inductive outcome : Type :=
| Return (status : Z) (output : printed)
| Undefined.

Definition main (inv : invocation) : outcome :=
  let o := fold_left parse_option (getopt_returns inv) initial_options in
  let o :=
    match argument inv with
    | Opened _ => o
    | Unreadable => mkOptions 5 (position_output_flag o) (true_prefix o)
    | NoOperand => mkOptions 6 (position_output_flag o) (true_prefix o)
    end in
  if negb (helpflag o =? 0) then Return (helpflag o) UsageText
  else
    let a := read_alignment (true_prefix o) (input_alignment (argument inv)) in
    if negb (eof (input_alignment (argument inv))) then Return 7 Nothing
    else
      match classify (true_one a) (true_two a) (test_one a) (test_two a)
              (negb (position_output_flag o =? 0)) with
      | Some st => Return 0 (Results st)
      | None => Undefined
      end.

(** ** Notions used to state the properties *)

(** *** Defined runs of the column loop

    Every subscript of the loop is within reach when each of the other
    three sequences is at most one character shorter than [true_one]; a
    [std::string] length is a [size_t]. *)
Definition in_range (tr1 tr2 te1 te2 : string) : Prop :=
  (String.length tr1 <= S (String.length tr2))%nat /\
  (String.length tr1 <= S (String.length te1))%nat /\
  (String.length tr1 <= S (String.length te2))%nat /\
  Z.of_nat (String.length tr1) < 2 ^ 64.

(** The column at index [i], when all four subscripts are within reach. *)
Definition column_at (tr1 tr2 te1 te2 : string) (i : nat)
  : option (ascii * ascii * ascii * ascii) :=
  match subscript tr1 i, subscript tr2 i,
        subscript te1 i, subscript te2 i with
  | Some t1, Some t2, Some e1, Some e2 => Some (t1, t2, e1, e2)
  | _, _, _, _ => None
  end.

(** Iteration [i] of a run takes the state [st] to the state [st']. *)
Definition processed (tr1 tr2 te1 te2 : string) (flag : bool) (i : nat)
  (st st' : state) : Prop :=
  iterations tr1 tr2 te1 te2 flag i = Some st /\
  iterations tr1 tr2 te1 te2 flag (S i) = Some st'.

(** The true bases differ and neither is a gap. *)
Definition is_het_snp (t1 t2 : ascii) : bool :=
  (negb (t1 =? t2) && (negb (t1 =? gap) && negb (t2 =? gap)))%char.

(** A test base that equals neither true base. *)
Definition matches_neither (t1 t2 e : ascii) : bool :=
  (negb (e =? t1) && negb (e =? t2))%char.

(** At a true indel, column [i] charges a false SNP to each test
    haplotype whose base matches neither true base, independently of the
    other one. *)
Definition indel_charges_each (tr1 tr2 te1 te2 : string) (flag : bool)
  (i : nat) : Prop :=
  forall t1 t2 e1 e2 st st',
    column_at tr1 tr2 te1 te2 i = Some (t1, t2, e1, e2) ->
    processed tr1 tr2 te1 te2 flag i st st' ->
    t1 <> t2 -> t1 = gap \/ t2 = gap ->
    (matches_neither t1 t2 e1 = true ->
     test_one_false_snps st' = test_one_false_snps st + 1) /\
    (matches_neither t1 t2 e2 = true ->
     test_two_false_snps st' = test_two_false_snps st + 1).

(** The eight counters of a state. *)
Definition counters (st : state) : list Z :=
  [ test_one_switches st; test_two_switches st;
    test_one_false_snps st; test_two_false_snps st;
    test_one_false_indels st; test_two_false_indels st;
    test_one_bad_calls st; test_two_bad_calls st ].

(** No counter of the state can wrap at its next increment. *)
Definition below_limit (st : state) : Prop :=
  Forall (fun c => 0 <= c /\ c + 1 < 2 ^ 64) (counters st).

(** *** Phase switches, as the specification words them *)

Module SwitchSpec.

(** The phase identity of a test haplotype. *)
Inductive phase : Type := Unset | MatchesTrue1 | MatchesTrue2.

Definition phase_eqb (p q : phase) : bool :=
  match p, q with
  | Unset, Unset | MatchesTrue1, MatchesTrue1
  | MatchesTrue2, MatchesTrue2 => true
  | _, _ => false
  end.

(** The value the program keeps for a phase identity. *)
Definition id_of (p : phase) : Z :=
  match p with Unset => 0 | MatchesTrue1 => 1 | MatchesTrue2 => 2 end.

Section OneHaplotype.

Variables tr1 tr2 te : string.

(** Column [i] is a heterozygous SNP: the true bases differ and neither
    is a gap. *)
Definition het_snp_column (i : nat) : bool :=
  match subscript tr1 i, subscript tr2 i with
  | Some a, Some b =>
      (negb (a =? b) && negb (a =? gap) && negb (b =? gap))%char
  | _, _ => false
  end.

(** The true haplotype that the test base matches at column [i], when
    [i] is a heterozygous SNP column and it matches one. *)
Definition matched_at (i : nat) : phase :=
  if het_snp_column i then
    match subscript tr1 i, subscript tr2 i, subscript te i with
    | Some a, Some b, Some c =>
        if (c =? a)%char then MatchesTrue1
        else if (c =? b)%char then MatchesTrue2
        else Unset
    | _, _, _ => Unset
    end
  else Unset.

(** The match at the nearest column before [i] where the test base
    matched a true haplotype; [Unset] when there is none. *)
Fixpoint previous_match (i : nat) : phase :=
  match i with
  | O => Unset
  | S j =>
      match matched_at j with
      | Unset => previous_match j
      | m => m
      end
  end.

(** Column [i] is a switch: it matches a true haplotype, there is an
    earlier match, and the two differ. *)
Definition is_switch (i : nat) : bool :=
  negb (phase_eqb (matched_at i) Unset) &&
  negb (phase_eqb (previous_match i) Unset) &&
  negb (phase_eqb (matched_at i) (previous_match i)).

(** The number of switch columns among the first [n]. *)
Fixpoint switch_columns (n : nat) : Z :=
  match n with
  | O => 0
  | S i => switch_columns i + (if is_switch i then 1 else 0)
  end.

End OneHaplotype.

End SwitchSpec.

(** *** FASTA records *)

(** A record of the input: its header line (with the marker) and the
    concatenation of the lines up to the next header. *)
Record fasta_record : Type := mkRecord {
  header_line : string;
  sequence : string
}.

(** The text of the lines before the first header, and the records, in
    file order. *)
Fixpoint split_records (lines : list string) : string * list fasta_record :=
  match lines with
  | [] => (EmptyString, [])
  | l :: rest =>
      let (text, records) := split_records rest in
      if is_header l then (EmptyString, mkRecord l text :: records)
      else (l ++ text, records)
  end.

Definition records (lines : list string) : list fasta_record :=
  snd (split_records lines).

(** The header after the leading marker character. *)
Definition header_text (r : fasta_record) : string :=
  substr (header_line r) 1.

(** The records whose header contains the prefix, and the others. *)
Definition true_records (prefix : string) (lines : list string)
  : list fasta_record :=
  filter (fun r => is_true_record prefix (header_line r)) (records lines).

Definition test_records (prefix : string) (lines : list string)
  : list fasta_record :=
  filter (fun r => negb (is_true_record prefix (header_line r)))
    (records lines).

(** A haplotype slot: header and sequence; empty when no record fills
    it. *)
Definition slot_of (r : option fasta_record) : string * string :=
  match r with
  | Some r => (header_text r, sequence r)
  | None => (EmptyString, EmptyString)
  end.

Definition true_one_slot (a : alignment) := (true_one_header a, true_one a).
Definition true_two_slot (a : alignment) := (true_two_header a, true_two a).
Definition test_one_slot (a : alignment) := (test_one_header a, test_one a).
Definition test_two_slot (a : alignment) := (test_two_header a, test_two a).

(** The sequences of a list of records, concatenated in order. *)
Definition sequences (rs : list fasta_record) : string :=
  fold_right String.append EmptyString (map sequence rs).

(** The header of the last record of a list; [h] for the empty list. *)
Definition last_header (rs : list fasta_record) (h : string) : string :=
  fold_left (fun _ r => header_text r) rs h.

(** Reading a whole record: its header line, then its sequence text. *)
Definition read_record (true_prefix : string) (a : alignment)
  (r : fasta_record) : alignment :=
  append_line (read_header true_prefix a (header_line r)) (sequence r).

(** The two slots of one class of records, and how a record of the class
    fills them. *)
Definition slots : Type := (string * string) * (string * string).

Definition empty_slots : slots :=
  ((EmptyString, EmptyString), (EmptyString, EmptyString)).

Definition fill (s : slots) (r : fasta_record) : slots :=
  let '((h1, s1), (h2, s2)) := s in
  if (h1 =? "")%string then ((header_text r, s1 ++ sequence r), (h2, s2))
  else ((h1, s1), (header_text r, s2 ++ sequence r)).

Definition true_slots (a : alignment) : slots :=
  (true_one_slot a, true_two_slot a).

Definition test_slots (a : alignment) : slots :=
  (test_one_slot a, test_two_slot a).

(** The first record of a class, if any, has a header that is not
    empty. *)
Definition first_header_given (class : list fasta_record) : bool :=
  match class with
  | [] => true
  | r :: _ => negb (header_text r =? "")%string
  end.

(** One of the first two records of a class has a header that is not
    empty. *)
Definition header_given_by_second (class : list fasta_record) : bool :=
  existsb (fun r => negb (header_text r =? "")%string) (firstn 2 class).

(** The loader takes the first two records of each class as the four
    haplotypes. *)
Definition first_two_assigned (prefix : string) (lines : list string)
  : Prop :=
  let a := read_lines prefix lines initial_alignment in
  true_one_slot a = slot_of (nth_error (true_records prefix lines) 0) /\
  true_two_slot a = slot_of (nth_error (true_records prefix lines) 1) /\
  test_one_slot a = slot_of (nth_error (test_records prefix lines) 0) /\
  test_two_slot a = slot_of (nth_error (test_records prefix lines) 1).

(** The two classes of records, their records and their second slot. *)
Inductive record_class : Type := TrueClass | TestClass.

Definition class_records (c : record_class) (prefix : string)
  (lines : list string) : list fasta_record :=
  match c with
  | TrueClass => true_records prefix lines
  | TestClass => test_records prefix lines
  end.

Definition second_slot (c : record_class) (a : alignment)
  : string * string :=
  match c with
  | TrueClass => true_two_slot a
  | TestClass => test_two_slot a
  end.

(** The records of a class after the second one end up at the end of the
    second slot's sequence, in file order, and the last of them gives the
    second slot's header. *)
Definition later_records_appended (class : list fasta_record)
  (second : string * string) : Prop :=
  fst second = last_header class EmptyString /\
  exists before, snd second = before ++ sequences (skipn 2 class).

(** *** Failure kinds and their exit codes *)

(** The options that [main] holds once [getopt_long] has returned -1, and
    the alignment it would read with them. *)
Definition parsed (inv : invocation) : options :=
  fold_left parse_option (getopt_returns inv) initial_options.

Definition loaded (inv : invocation) : alignment :=
  read_alignment (true_prefix (parsed inv)) (input_alignment (argument inv)).



(** What one [getopt_long] call shows about the command line. *)
Definition asks_help (r : getopt_return) : bool :=
  match r with
  | Stored HelpFlag => true
  | Stored PositionOutputFlag => false
  | Returned v _ => v =? char_code "h"
  end.

Definition lacks_prefix (r : getopt_return) : bool :=
  match r with
  | Returned v None => v =? char_code "p"
  | _ => false
  end.

Definition is_invalid (r : getopt_return) : bool :=
  match r with
  | Stored _ => false
  | Returned v _ =>
      negb (v =? 0) && negb (v =? char_code "h") &&
      negb (v =? char_code "o") && negb (v =? char_code "p")
  end.

(** *** The command line

    [getopt_long] belongs to the C library, not to this program.  By its
    contract, with the option string ["hop:"] and the long options of
    [main], a help or position output option comes back as its letter
    (short form) or as a stored flag (long form); a prefix option comes
    back as ['p'] with its argument in [optarg]; and both an option that
    is not known and a prefix option that lacks its argument come back as
    ['?'], since the option string does not start with [':']. *)
Inductive option_word : Type :=
| ShortHelp
| LongHelp
| ShortPositions
| LongPositions
| PrefixOption (arg : string)
| PrefixWithoutArgument
| UnknownOption.

Definition delivered (w : option_word) : getopt_return :=
  match w with
  | ShortHelp => Returned (char_code "h") None
  | LongHelp => Stored HelpFlag
  | ShortPositions => Returned (char_code "o") None
  | LongPositions => Stored PositionOutputFlag
  | PrefixOption arg => Returned (char_code "p") (Some arg)
  | PrefixWithoutArgument => Returned (char_code "?") None
  | UnknownOption => Returned (char_code "?") None
  end.

(** A command line: its option words in order, and its operand. *)
Record command_line : Type := mkCommandLine {
  words : list option_word;
  path : operand
}.

Definition invocation_of (c : command_line) : invocation :=
  mkInvocation (map delivered (words c)) (path c).






(** *** Concrete inputs *)

(** A wrapped four-record alignment with text before the first header. *)
Definition four_records : list string :=
  [ "junk"; ">hapT_1"; "AC"; "GT"; ">asm1"; "ACGT";
    ">hapT_2"; "AC"; "GA"; ""; ">asm2"; "AC-A"; "" ].

(** Three records of the true class. *)
Definition three_true_records : list string :=
  [ ">T1"; "A"; ">T2"; "C"; ">T3"; "G"; ">x"; "A"; ">y"; "C" ].

(** Two records of the test class, the first with an empty header. *)
Definition empty_test_header : list string :=
  [ ">T1"; "A"; ">T2"; "C"; ">"; "G"; ">y"; "T" ].

(** Four records of the test class, the first two with empty headers. *)
Definition two_empty_headers : list string :=
  [ ">"; "A"; ">"; "C"; ">x"; "G"; ">y"; "T" ].

(** *** Notions for the further properties *)

(** A phase identity is 0, 1 or 2. *)
Definition is_phase_id (v : Z) : Prop := v = 0 \/ v = 1 \/ v = 2.

(** What a run decides: the two identities and the eight counters. *)
Definition verdict (st : state) : Z * Z * list Z :=
  (test_one_id st, test_two_id st, counters st).

(** The kind of an event line and the position it reports. *)
Inductive event_kind : Type :=
| KFalseIndel | KFalseSNP | KTestOneSwitches | KTestTwoSwitches
| KTestOneNoMatch | KTestTwoNoMatch | KTrueIndel
| KFalseSNPDueToOne | KFalseSNPDueToTwo.

Definition kind_of (m : message) : event_kind :=
  match m with
  | FalseIndel _ => KFalseIndel
  | FalseSNP _ => KFalseSNP
  | TestOneSwitches _ => KTestOneSwitches
  | TestTwoSwitches _ => KTestTwoSwitches
  | TestOneNoMatch _ => KTestOneNoMatch
  | TestTwoNoMatch _ => KTestTwoNoMatch
  | TrueIndel _ => KTrueIndel
  | FalseSNPDueToOne _ => KFalseSNPDueToOne
  | FalseSNPDueToTwo _ => KFalseSNPDueToTwo
  end.

Definition position_of (m : message) : Z :=
  match m with
  | FalseIndel p | FalseSNP p | TestOneSwitches p | TestTwoSwitches p
  | TestOneNoMatch p | TestTwoNoMatch p | TrueIndel p
  | FalseSNPDueToOne p | FalseSNPDueToTwo p => p
  end.

Definition event_kind_eqb (k k' : event_kind) : bool :=
  match k, k' with
  | KFalseIndel, KFalseIndel | KFalseSNP, KFalseSNP
  | KTestOneSwitches, KTestOneSwitches | KTestTwoSwitches, KTestTwoSwitches
  | KTestOneNoMatch, KTestOneNoMatch | KTestTwoNoMatch, KTestTwoNoMatch
  | KTrueIndel, KTrueIndel | KFalseSNPDueToOne, KFalseSNPDueToOne
  | KFalseSNPDueToTwo, KFalseSNPDueToTwo => true
  | _, _ => false
  end.

(** The number of event lines of a kind. *)
Fixpoint count_kind (k : event_kind) (l : list message) : Z :=
  match l with
  | [] => 0
  | m :: l' =>
      (if event_kind_eqb (kind_of m) k then 1 else 0) + count_kind k l'
  end.

(** The number of heterozygous SNP columns among the first [n]. *)
Fixpoint het_snp_columns (tr1 tr2 : string) (n : nat) : Z :=
  match n with
  | O => 0
  | S i =>
      het_snp_columns tr1 tr2 i +
      (if SwitchSpec.het_snp_column tr1 tr2 i then 1 else 0)
  end.

(** A [getopt_long] call that turns the position output on. *)
Definition wants_positions (r : getopt_return) : bool :=
  match r with
  | Stored PositionOutputFlag => true
  | Stored HelpFlag => false
  | Returned v _ => v =? char_code "o"
  end.

(** The arguments of the [-p] options, in command-line order. *)
Definition prefix_args (rs : list getopt_return) : list string :=
  flat_map
    (fun r =>
       match r with
       | Returned v (Some arg) =>
           if v =? char_code "p" then [arg] else []
       | _ => []
       end) rs.

(** The code that one [getopt_long] call stores in [helpflag], if any. *)
Definition option_code (r : getopt_return) : option Z :=
  if asks_help r then Some 1
  else if lacks_prefix r then Some 3
  else if is_invalid r then Some 4
  else None.

(** A line that is not empty. *)
Definition nonempty (l : string) : bool := negb (l =? "")%string.

(** The eight counters at zero. *)
Definition zero_counters : list Z := [0; 0; 0; 0; 0; 0; 0; 0].

(** The event lines of each kind are as many as the counters say. *)
Definition lines_match_counters (st : state) : Prop :=
  count_kind KTestOneSwitches (cout st) = test_one_switches st /\
  count_kind KTestTwoSwitches (cout st) = test_two_switches st /\
  count_kind KTestOneNoMatch (cout st) = test_one_bad_calls st /\
  count_kind KTestTwoNoMatch (cout st) = test_two_bad_calls st /\
  count_kind KFalseIndel (cout st) =
    test_one_false_indels st + test_two_false_indels st /\
  count_kind KFalseSNP (cout st) + count_kind KFalseSNPDueToOne (cout st) +
    count_kind KFalseSNPDueToTwo (cout st) =
    test_one_false_snps st + test_two_false_snps st.

(** The state at the end of scenario E's run, and the report of the
    wrapped four-record alignment. *)
Definition bad_call_state : state :=
  Eval vm_compute in
    match classify "AC" "AG" "AT" "AC" true with
    | Some st => st
    | None => initial_state
    end.

Definition four_records_report : state :=
  Eval vm_compute in
    match classify "ACGT" "ACGA" "ACGT" "AC-A" false with
    | Some st => st
    | None => initial_state
    end.

(** * Properties *)

(** ** Strings *)

Lemma get_none_length (s : string) (i : nat) :
  String.get i s = None -> (String.length s <= i)%nat.
Proof.
  revert i; induction s as [|c s IH]; intros [|i] H; simpl in *;
    try lia; try discriminate.
  apply IH in H; lia.
Qed.

Lemma subscript_within (s : string) (i : nat) :
  (i <= String.length s)%nat -> exists c, subscript s i = Some c.
Proof.
  intros H; unfold subscript.
  destruct (String.get i s) as [c|] eqn:E; [now exists c|].
  apply get_none_length in E.
  replace i with (String.length s) by lia.
  rewrite Nat.eqb_refl; now eexists.
Qed.

Lemma append_empty_r (s : string) : (s ++ "")%string = s.
Proof. induction s; simpl; congruence. Qed.

Lemma append_assoc (s1 s2 s3 : string) :
  ((s1 ++ s2) ++ s3)%string = (s1 ++ (s2 ++ s3))%string.
Proof. induction s1; simpl; congruence. Qed.

Lemma substring_all (s : string) : String.substring 0 (String.length s) s = s.
Proof. induction s; simpl; congruence. Qed.

(** ** The column step *)

Lemma incr_exact (c : Z) : 0 <= c -> c + 1 < 2 ^ 64 -> incr c = c + 1.
Proof. intros; unfold incr; apply Z.mod_small; lia. Qed.

Lemma incr_bounds (c : Z) : 0 <= c -> 0 <= incr c <= c + 1.
Proof.
  intros H; unfold incr; split.
  - apply Z.mod_pos_bound; lia.
  - apply Z.mod_le; lia.
Qed.

(** Pushes the field projections through the state updates. *)
Ltac simplify_fields :=
  cbn [report set_test_one_id set_test_two_id
       incr_test_one_switches incr_test_two_switches
       incr_test_one_false_snps incr_test_two_false_snps
       incr_test_one_false_indels incr_test_two_false_indels
       incr_test_one_bad_calls incr_test_two_bad_calls
       test_one_id test_two_id test_one_switches test_two_switches
       test_one_false_snps test_two_false_snps
       test_one_false_indels test_two_false_indels
       test_one_bad_calls test_two_bad_calls cout negb andb orb].

Ltac split_test b :=
  match b with
  | context [(?x =? ?y)%char] => destruct (x =? y)%char eqn:?
  | context [Z.eqb ?x ?y] => destruct (Z.eqb x y) eqn:?
  end.

(** Case analysis on the tests that [column_step] makes. *)
Ltac column_cases :=
  cbv beta iota zeta delta
    [column_step homozygous_site heterozygous_snp indel
     matches_neither is_het_snp counters];
  repeat match goal with
    | |- context [report ?f _ _] => is_var f; destruct f
    | H : ?x = ?y |- context [(?x =? ?y)%char] =>
        rewrite (proj2 (Ascii.eqb_eq x y) H)
    | H : ?x <> ?y |- context [(?x =? ?y)%char] =>
        rewrite (proj2 (Ascii.eqb_neq x y) H)
    end;
  simplify_fields;
  repeat (match goal with
    | |- context [if ?b then _ else _] =>
        lazymatch b with
        | context [if _ then _ else _] => fail
        | _ => split_test b
        end
    end; simplify_fields).

(** Boolean tests on characters and identities as propositions. *)
Ltac char_facts :=
  repeat match goal with
    | H : negb _ = true |- _ => apply negb_true_iff in H
    | H : negb _ = false |- _ => apply negb_false_iff in H
    | H : (_ && _)%bool = true |- _ => apply andb_true_iff in H; destruct H
    | H : (_ || _)%bool = false |- _ => apply orb_false_iff in H; destruct H
    | H : (_ || _)%bool = true |- _ => apply orb_true_iff in H; destruct H
    | H : (_ && _)%bool = false |- _ => apply andb_false_iff in H; destruct H
    | H : (_ =? _)%char = true |- _ => apply Ascii.eqb_eq in H
    | H : (_ =? _)%char = false |- _ => apply Ascii.eqb_neq in H
    | H : (_ =? _)%Z = true |- _ => apply Z.eqb_eq in H
    | H : (_ =? _)%Z = false |- _ => apply Z.eqb_neq in H
    end.

(** Each counter is kept or incremented by a column. *)
Lemma column_step_counters flag i t1 t2 e1 e2 st :
  Forall2 (fun c c' => c' = c \/ c' = incr c)
    (counters st) (counters (column_step flag i t1 t2 e1 e2 st)).
Proof.
  column_cases;
    repeat first [apply Forall2_cons | apply Forall2_nil]; auto.
Qed.

(** ** Runs of the column loop *)

Ltac split_counters :=
  repeat match goal with
    | H : below_limit _ |- _ => unfold below_limit, counters in H
    | H : Forall _ (_ :: _) |- _ =>
        apply Forall_cons_iff in H; destruct H as [[? ?] H]
    | H : Forall _ [] |- _ => clear H
    end.

(** Increments that cannot wrap are plain additions. *)
Ltac exact_incr := rewrite ?incr_exact by lia.

(** Where the loop body does not read [test_two[i]], the column does not
    depend on it. *)
Lemma column_step_unread flag i t1 t2 e1 e2 e2' st :
  reads_test_two t1 t2 e1 = false ->
  column_step flag i t1 t2 e1 e2 st = column_step flag i t1 t2 e1 e2' st.
Proof.
  unfold reads_test_two, column_step.
  destruct (t1 =? t2)%char; [discriminate|].
  destruct (negb (t1 =? gap) && negb (t2 =? gap))%char; [discriminate|].
  intros H; apply negb_false_iff in H; unfold indel; now rewrite H.
Qed.

(** An iteration that is defined is a column step on the characters it
    read. *)
Lemma iterations_step tr1 tr2 te1 te2 flag (i : nat) st' :
  iterations tr1 tr2 te1 te2 flag (S i) = Some st' ->
  exists st t1 t2 e1 e2,
    iterations tr1 tr2 te1 te2 flag i = Some st /\
    subscript tr1 i = Some t1 /\ subscript tr2 i = Some t2 /\
    subscript te1 i = Some e1 /\
    st' = column_step flag i t1 t2 e1 e2 st.
Proof.
  cbn [iterations].
  destruct (iterations tr1 tr2 te1 te2 flag i) as [st|]; [|discriminate].
  destruct (subscript tr1 i) as [t1|], (subscript tr2 i) as [t2|],
    (subscript te1 i) as [e1|]; try discriminate.
  destruct (reads_test_two t1 t2 e1).
  - destruct (subscript te2 i) as [e2|]; [|discriminate].
    intros H; inversion H; subst; exists st, t1, t2, e1, e2; auto.
  - intros H; inversion H; subst; exists st, t1, t2, e1, Ascii.zero; auto.
Qed.

Section Run.

Variables tr1 tr2 te1 te2 : string.
Variable flag : bool.
Hypothesis Hrange : in_range tr1 tr2 te1 te2.

Local Notation "'run'" := (iterations tr1 tr2 te1 te2 flag).

Lemma column_at_within (i : nat) :
  (i < String.length tr1)%nat ->
  exists t1 t2 e1 e2, column_at tr1 tr2 te1 te2 i = Some (t1, t2, e1, e2).
Proof.
  intros Hi; destruct Hrange as (H2 & H3 & H4 & _).
  destruct (subscript_within tr1 i) as [t1 E1]; [lia|].
  destruct (subscript_within tr2 i) as [t2 E2]; [lia|].
  destruct (subscript_within te1 i) as [e1 E3]; [lia|].
  destruct (subscript_within te2 i) as [e2 E4]; [lia|].
  exists t1, t2, e1, e2; unfold column_at; now rewrite E1, E2, E3, E4.
Qed.

Lemma run_step (i : nat) t1 t2 e1 e2 st :
  column_at tr1 tr2 te1 te2 i = Some (t1, t2, e1, e2) ->
  run i = Some st ->
  run (S i) = Some (column_step flag i t1 t2 e1 e2 st).
Proof.
  unfold column_at; intros Hc Hi; cbn [iterations]; rewrite Hi.
  destruct (subscript tr1 i), (subscript tr2 i),
    (subscript te1 i), (subscript te2 i); try discriminate.
  inversion Hc; subst.
  destruct (reads_test_two t1 t2 e1) eqn:E; [reflexivity|].
  f_equal; now apply column_step_unread.
Qed.

(** The loop reaches every index with counters that are at most the
    number of columns seen. *)
Lemma run_counters (n : nat) :
  (n <= String.length tr1)%nat ->
  exists st, run n = Some st /\
    Forall (fun c => 0 <= c <= Z.of_nat n) (counters st).
Proof.
  induction n as [|i IH]; intros Hn.
  - exists initial_state; split; [reflexivity|].
    repeat constructor; cbn; lia.
  - destruct IH as (st & Hi & Hb); [lia|].
    destruct (column_at_within i) as (t1 & t2 & e1 & e2 & Hc); [lia|].
    eexists; split; [eapply run_step; eauto|].
    pose proof (column_step_counters flag i t1 t2 e1 e2 st) as Hs.
    revert Hb Hs; generalize (counters st).
    generalize (counters (column_step flag i t1 t2 e1 e2 st)).
    intros l' l Hb Hs; induction Hs as [|c c' l l' Hc' Hs IHs];
      [constructor|].
    apply Forall_cons_iff in Hb; destruct Hb as [Hc0 Hb].
    constructor; [|auto].
    pose proof (incr_bounds c). destruct Hc'; subst; lia.
Qed.


(** Column [i] is processed, from a state whose counters cannot wrap. *)
Lemma run_column (i : nat) t1 t2 e1 e2 :
  (i < String.length tr1)%nat ->
  column_at tr1 tr2 te1 te2 i = Some (t1, t2, e1, e2) ->
  exists st, below_limit st /\
    processed tr1 tr2 te1 te2 flag i st (column_step flag i t1 t2 e1 e2 st).
Proof.
  intros Hi Hc.
  destruct (run_counters i) as (st & Hr & Hb); [lia|].
  exists st; split.
  - destruct Hrange as (_ & _ & _ & HL).
    eapply Forall_impl; [|exact Hb]; cbv beta; intros; lia.
  - split; [assumption|]. now apply run_step.
Qed.


(** *** One column of a run *)

Section AtColumn.

Variable i : nat.
Variables t1 t2 e1 e2 : ascii.
Hypothesis Hi : (i < String.length tr1)%nat.
Hypothesis Hcol : column_at tr1 tr2 te1 te2 i = Some (t1, t2, e1, e2).

Local Notation "'step'" := (processed tr1 tr2 te1 te2 flag i).

(** Opens a goal about the column: names the state before it, with
    counters that cannot wrap, and the state after it. *)
Ltac at_column st :=
  destruct (run_column i t1 t2 e1 e2 Hi Hcol) as (st & Hlimit & Hstep);
  exists st, (column_step flag i t1 t2 e1 e2 st);
  split; [exact Hstep|];
  clear Hstep; split_counters.

(** C8: a homozygous column whose two test bases are equal and not gaps
    changes none of the eight counters and neither phase identity, whether
    or not the shared test base is the true base. *)
Theorem homozygous_equal_calls_change_nothing :
  t1 = t2 -> e1 <> gap -> e2 <> gap -> e1 = e2 ->
  exists st st', step st st' /\
    counters st' = counters st /\
    test_one_id st' = test_one_id st /\
    test_two_id st' = test_two_id st.
Proof.
  intros Ht Hg1 Hg2 He; at_column st.
  column_cases; char_facts; subst; try congruence; auto.
Qed.

(** C4: at a homozygous column with a gap in a test haplotype, the test
    haplotypes whose base is not the gap, and only they, have their false
    indel count incremented by one; with two gaps no counter changes. *)
Theorem homozygous_gap_charges_false_indels :
  t1 = t2 -> e1 = gap \/ e2 = gap ->
  exists st st', step st st' /\
    counters st' =
      [ test_one_switches st; test_two_switches st;
        test_one_false_snps st; test_two_false_snps st;
        test_one_false_indels st + (if (e1 =? gap)%char then 0 else 1);
        test_two_false_indels st + (if (e2 =? gap)%char then 0 else 1);
        test_one_bad_calls st; test_two_bad_calls st ] /\
    (e1 = gap -> e2 = gap -> counters st' = counters st) /\
    test_one_id st' = test_one_id st /\
    test_two_id st' = test_two_id st.
Proof.
  intros Ht Hg; at_column st.
  column_cases; char_facts; subst; try congruence;
    try (destruct Hg; congruence);
    exact_incr; rewrite ?Z.add_0_r;
    repeat split; intros; subst; try reflexivity; congruence.
Qed.

(** C5: at a homozygous column whose test bases are not gaps and differ,
    exactly one false SNP count is incremented by one: that of test
    haplotype 1 when its base differs from the true base, that of test
    haplotype 2 otherwise; the phase identities are kept. *)
Theorem homozygous_disagreement_charges_one_false_snp :
  t1 = t2 -> e1 <> gap -> e2 <> gap -> e1 <> e2 ->
  exists st st', step st st' /\
    counters st' =
      [ test_one_switches st; test_two_switches st;
        test_one_false_snps st + (if (e1 =? t1)%char then 0 else 1);
        test_two_false_snps st + (if (e1 =? t1)%char then 1 else 0);
        test_one_false_indels st; test_two_false_indels st;
        test_one_bad_calls st; test_two_bad_calls st ] /\
    test_one_id st' = test_one_id st /\
    test_two_id st' = test_two_id st.
Proof.
  intros Ht Hg1 Hg2 He; at_column st.
  column_cases; char_facts; subst; try congruence;
    exact_incr; rewrite ?Z.add_0_r; auto.
Qed.

(** C6: at a heterozygous SNP column, a test haplotype whose base equals
    neither true base has its bad call count incremented by one and keeps
    its phase identity. *)
Theorem bad_call_keeps_phase_identity :
  t1 <> t2 -> t1 <> gap -> t2 <> gap ->
  exists st st', step st st' /\
    (e1 <> t1 -> e1 <> t2 ->
     test_one_bad_calls st' = test_one_bad_calls st + 1 /\
     test_one_id st' = test_one_id st) /\
    (e2 <> t1 -> e2 <> t2 ->
     test_two_bad_calls st' = test_two_bad_calls st + 1 /\
     test_two_id st' = test_two_id st).
Proof.
  intros Ht Hg1 Hg2; at_column st.
  column_cases; char_facts; subst; try congruence;
    exact_incr;
    split; intros; try congruence; auto.
Qed.

(** C7: a column that is not a heterozygous SNP (the true bases agree, or
    one of them is a gap) keeps both phase identities. *)
Theorem phase_identity_kept_outside_het_snps :
  t1 = t2 \/ t1 = gap \/ t2 = gap ->
  exists st st', step st st' /\
    test_one_id st' = test_one_id st /\
    test_two_id st' = test_two_id st.
Proof.
  intros Ht; at_column st.
  column_cases; char_facts; subst; try congruence;
    try (destruct Ht as [?|[?|?]]; congruence);
    auto.
Qed.

(** C1, amended: at a true indel column, test haplotype 1 is charged a
    false SNP when its base matches neither true base; test haplotype 2 is
    charged one when its base matches neither true base and the base of
    test haplotype 1 matches one of them.  No other counter changes. *)
Theorem indel_charges_first_mismatching_haplotype :
  t1 <> t2 -> t1 = gap \/ t2 = gap ->
  exists st st', step st st' /\
    counters st' =
      [ test_one_switches st; test_two_switches st;
        test_one_false_snps st +
          (if matches_neither t1 t2 e1 then 1 else 0);
        test_two_false_snps st +
          (if negb (matches_neither t1 t2 e1) && matches_neither t1 t2 e2
           then 1 else 0);
        test_one_false_indels st; test_two_false_indels st;
        test_one_bad_calls st; test_two_bad_calls st ].
Proof.
  intros Ht Hg; at_column st. unfold matches_neither.
  column_cases; char_facts; subst; try congruence;
    try (destruct Hg; congruence);
    exact_incr; rewrite ?Z.add_0_r; reflexivity.
Qed.

End AtColumn.

(** *** Switch counts *)

Lemma column_at_subscripts i t1 t2 e1 e2 :
  column_at tr1 tr2 te1 te2 i = Some (t1, t2, e1, e2) ->
  subscript tr1 i = Some t1 /\ subscript tr2 i = Some t2 /\
  subscript te1 i = Some e1 /\ subscript te2 i = Some e2.
Proof.
  unfold column_at.
  destruct (subscript tr1 i), (subscript tr2 i),
    (subscript te1 i), (subscript te2 i); try discriminate.
  intros H; inversion H; auto.
Qed.

Lemma processed_column i st st' :
  processed tr1 tr2 te1 te2 flag i st st' ->
  exists t1 t2 e1 e2, st' = column_step flag i t1 t2 e1 e2 st.
Proof.
  intros [Hi HS]; apply iterations_step in HS.
  destruct HS as (st0 & t1 & t2 & e1 & e2 & H0 & _ & _ & _ & ->).
  assert (st0 = st) by congruence; subst st0.
  now exists t1, t2, e1, e2.
Qed.

(** What a column does to the identity and the switch counter of one test
    haplotype, whatever the other one holds. *)
Lemma column_step_one i t1 t2 e1 e2 st :
  let st' := column_step flag i t1 t2 e1 e2 st in
  test_one_id st' =
    (if is_het_snp t1 t2 then
       if (e1 =? t1)%char then 1
       else if (e1 =? t2)%char then 2 else test_one_id st
     else test_one_id st) /\
  test_one_switches st' =
    (if is_het_snp t1 t2 then
       if (e1 =? t1)%char then
         if test_one_id st =? 2 then incr (test_one_switches st)
         else test_one_switches st
       else if (e1 =? t2)%char then
         if test_one_id st =? 1 then incr (test_one_switches st)
         else test_one_switches st
       else test_one_switches st
     else test_one_switches st).
Proof.
  column_cases; split; reflexivity.
Qed.

Lemma column_step_two i t1 t2 e1 e2 st :
  let st' := column_step flag i t1 t2 e1 e2 st in
  test_two_id st' =
    (if is_het_snp t1 t2 then
       if (e2 =? t1)%char then 1
       else if (e2 =? t2)%char then 2 else test_two_id st
     else test_two_id st) /\
  test_two_switches st' =
    (if is_het_snp t1 t2 then
       if (e2 =? t1)%char then
         if test_two_id st =? 2 then incr (test_two_switches st)
         else test_two_switches st
       else if (e2 =? t2)%char then
         if test_two_id st =? 1 then incr (test_two_switches st)
         else test_two_switches st
       else test_two_switches st
     else test_two_switches st).
Proof.
  column_cases; split; reflexivity.
Qed.

(** One haplotype of the specification against the same tests. *)
Lemma switch_spec_step (te : string) i t1 t2 e (id sw : Z) :
  subscript tr1 i = Some t1 -> subscript tr2 i = Some t2 ->
  subscript te i = Some e ->
  0 <= sw -> sw + 1 < 2 ^ 64 ->
  id = SwitchSpec.id_of (SwitchSpec.previous_match tr1 tr2 te i) ->
  (if is_het_snp t1 t2 then
     if (e =? t1)%char then 1 else if (e =? t2)%char then 2 else id
   else id) =
    SwitchSpec.id_of (SwitchSpec.previous_match tr1 tr2 te (S i)) /\
  (if is_het_snp t1 t2 then
     if (e =? t1)%char then if id =? 2 then incr sw else sw
     else if (e =? t2)%char then if id =? 1 then incr sw else sw
     else sw
   else sw) =
    sw + (if SwitchSpec.is_switch tr1 tr2 te i then 1 else 0).
Proof.
  intros E1 E2 E3 H0 H1 ->.
  unfold SwitchSpec.is_switch; cbn [SwitchSpec.previous_match].
  unfold SwitchSpec.matched_at, SwitchSpec.het_snp_column, is_het_snp.
  rewrite E1, E2, E3; exact_incr.
  destruct (SwitchSpec.previous_match tr1 tr2 te i),
    (t1 =? t2)%char, (t1 =? gap)%char, (t2 =? gap)%char,
    (e =? t1)%char, (e =? t2)%char; cbn; split; lia.
Qed.

Lemma run_switches (n : nat) :
  (n <= String.length tr1)%nat ->
  exists st, run n = Some st /\
    test_one_id st =
      SwitchSpec.id_of (SwitchSpec.previous_match tr1 tr2 te1 n) /\
    test_two_id st =
      SwitchSpec.id_of (SwitchSpec.previous_match tr1 tr2 te2 n) /\
    test_one_switches st = SwitchSpec.switch_columns tr1 tr2 te1 n /\
    test_two_switches st = SwitchSpec.switch_columns tr1 tr2 te2 n.
Proof.
  induction n as [|i IH]; intros Hn.
  - exists initial_state; cbn; auto.
  - destruct IH as (st & Hr & Hid1 & Hid2 & Hs1 & Hs2); [lia|].
    destruct (column_at_within i) as (t1 & t2 & e1 & e2 & Hc); [lia|].
    destruct (run_column i t1 t2 e1 e2) as (st0 & Hl & Hr0 & HS);
      [lia|assumption|].
    assert (st0 = st) by congruence; subst st0.
    destruct (column_at_subscripts _ _ _ _ _ Hc) as (E1 & E2 & E3 & E4).
    destruct (column_step_one i t1 t2 e1 e2 st) as [Ha Hb].
    destruct (column_step_two i t1 t2 e1 e2 st) as [Ha' Hb'].
    unfold below_limit, counters in Hl.
    apply Forall_cons_iff in Hl; destruct Hl as [[? ?] Hl].
    apply Forall_cons_iff in Hl; destruct Hl as [[? ?] Hl].
    destruct (switch_spec_step te1 i t1 t2 e1 _ _ E1 E2 E3 H H0 Hid1)
      as [Hc1 Hd1].
    destruct (switch_spec_step te2 i t1 t2 e2 _ _ E1 E2 E4 H1 H2 Hid2)
      as [Hc2 Hd2].
    eexists; split; [exact HS|].
    cbn [SwitchSpec.switch_columns]; rewrite <- Hs1, <- Hs2.
    rewrite Ha, Hb, Ha', Hb'; auto.
Qed.

(** C2: the final switch count of each test haplotype is the number of
    heterozygous SNP columns where the true haplotype it matches differs
    from the one it matched at the nearest earlier such column; a column
    reached with an unset identity adds no switch. *)
Theorem switch_count_is_number_of_phase_changes :
  exists st, classify tr1 tr2 te1 te2 flag = Some st /\
    test_one_switches st =
      SwitchSpec.switch_columns tr1 tr2 te1 (String.length tr1) /\
    test_two_switches st =
      SwitchSpec.switch_columns tr1 tr2 te2 (String.length tr1) /\
    forall i st0 st1,
      processed tr1 tr2 te1 te2 flag i st0 st1 ->
      (test_one_id st0 = 0 ->
       test_one_switches st1 = test_one_switches st0) /\
      (test_two_id st0 = 0 ->
       test_two_switches st1 = test_two_switches st0).
Proof.
  destruct (run_switches (String.length tr1)) as (st & Hr & _ & _ & H1 & H2);
    [lia|].
  exists st; split; [exact Hr|]; split; [exact H1|]; split; [exact H2|].
  intros i st0 st1 Hp.
  destruct (processed_column _ _ _ Hp) as (t1 & t2 & e1 & e2 & ->).
  split; intros Hid; column_cases; char_facts; reflexivity || congruence.
Qed.

End Run.

(** ** Reading the alignment *)

Lemma append_length (s1 s2 : string) :
  String.length (s1 ++ s2) = (String.length s1 + String.length s2)%nat.
Proof. induction s1; simpl; congruence. Qed.

Lemma append_line_empty (a : alignment) : append_line a "" = a.
Proof.
  destruct a as [h1 h2 h3 h4 s1 s2 s3 s4 n]; unfold append_line;
    cbn [record_num true_one true_two test_one test_two
         true_one_header true_two_header test_one_header test_two_header].
  destruct n as [|p|p]; try reflexivity.
  do 3 (try destruct p as [p|p|]); rewrite ?append_empty_r; reflexivity.
Qed.

Lemma append_line_twice (a : alignment) (x y : string) :
  append_line (append_line a x) y = append_line a (x ++ y).
Proof.
  destruct a as [h1 h2 h3 h4 s1 s2 s3 s4 n]; unfold append_line;
    cbn [record_num true_one true_two test_one test_two
         true_one_header true_two_header test_one_header test_two_header].
  destruct n as [|p|p]; try reflexivity.
  do 3 (try destruct p as [p|p|]);
    cbn [record_num true_one true_two test_one test_two
         true_one_header true_two_header test_one_header test_two_header];
    rewrite ?append_assoc; reflexivity.
Qed.

(** Reading line by line is reading record by record. *)
Lemma read_lines_by_record (prefix : string) (lines : list string) :
  forall a,
    read_lines prefix lines a =
    fold_left (read_record prefix) (snd (split_records lines))
      (append_line a (fst (split_records lines))).
Proof.
  unfold read_lines; induction lines as [|l rest IH]; intros a.
  - cbn. now rewrite append_line_empty.
  - cbn [fold_left split_records]. rewrite IH.
    destruct (split_records rest) as [text recs].
    unfold read_line; destruct (is_header l); cbn [fst snd fold_left].
    + unfold read_record at 2; cbn [header_line sequence].
      now rewrite append_line_empty.
    + now rewrite append_line_twice.
Qed.

Lemma substr_one (c : ascii) (s : string) : substr (String c s) 1 = s.
Proof. unfold substr; cbn. rewrite Nat.sub_0_r. apply substring_all. Qed.

(** A record of the true class fills the true slots and leaves the test
    slots; a record of the test class does the converse. *)
Lemma read_record_slots (prefix : string) (a : alignment) (r : fasta_record) :
  (true_slots (read_record prefix a r), test_slots (read_record prefix a r)) =
  if is_true_record prefix (header_line r)
  then (fill (true_slots a) r, test_slots a)
  else (true_slots a, fill (test_slots a) r).
Proof.
  unfold read_record, read_header, fill, true_slots, test_slots,
    true_one_slot, true_two_slot, test_one_slot, test_two_slot, header_text.
  destruct (is_true_record prefix (header_line r));
    [destruct (true_one_header a =? "")%string
    |destruct (test_one_header a =? "")%string]; reflexivity.
Qed.

Lemma read_records_slots (prefix : string) (rs : list fasta_record) :
  forall a,
    let a' := fold_left (read_record prefix) rs a in
    true_slots a' =
      fold_left fill
        (filter (fun r => is_true_record prefix (header_line r)) rs)
        (true_slots a) /\
    test_slots a' =
      fold_left fill
        (filter (fun r => negb (is_true_record prefix (header_line r))) rs)
        (test_slots a).
Proof.
  induction rs as [|r rs IH]; intros a; cbn [fold_left filter].
  - split; reflexivity.
  - destruct (IH (read_record prefix a r)) as [Ht He].
    cbv zeta; rewrite Ht, He.
    pose proof (read_record_slots prefix a r) as Hr.
    destruct (is_true_record prefix (header_line r)); cbn [negb fold_left];
      apply pair_equal_spec in Hr; destruct Hr as [Hr1 Hr2];
      rewrite Hr1, Hr2; split; reflexivity.
Qed.

(** The slots of the alignment read from a list of lines. *)
Lemma read_lines_slots (prefix : string) (lines : list string) :
  let a := read_lines prefix lines initial_alignment in
  true_slots a = fold_left fill (true_records prefix lines) empty_slots /\
  test_slots a = fold_left fill (test_records prefix lines) empty_slots.
Proof.
  cbv zeta; rewrite read_lines_by_record.
  change (append_line initial_alignment (fst (split_records lines)))
    with initial_alignment.
  apply (read_records_slots prefix (snd (split_records lines))
           initial_alignment).
Qed.

(** Once the first slot has a header, every record goes to the second. *)
Lemma fill_second (rs : list fasta_record) :
  forall h1 s1 h2 s2,
    h1 <> EmptyString ->
    fold_left fill rs ((h1, s1), (h2, s2)) =
    ((h1, s1), (last_header rs h2, s2 ++ sequences rs)).
Proof.
  induction rs as [|r rs IH]; intros h1 s1 h2 s2 Hh; cbn [fold_left].
  - unfold last_header, sequences; cbn. now rewrite append_empty_r.
  - unfold fill at 2. apply String.eqb_neq in Hh; rewrite Hh.
    apply String.eqb_neq in Hh; rewrite IH by assumption.
    unfold last_header, sequences; cbn [fold_left map fold_right].
    now rewrite append_assoc.
Qed.

Lemma fill_empty (r : fasta_record) :
  fill empty_slots r =
  ((header_text r, sequence r), (EmptyString, EmptyString)).
Proof. reflexivity. Qed.

Lemma fill_unclaimed (s1 h2 s2 : string) (r : fasta_record) :
  fill ((EmptyString, s1), (h2, s2)) r =
  ((header_text r, s1 ++ sequence r), (h2, s2)).
Proof. reflexivity. Qed.

Lemma fill_claimed (h1 s1 h2 s2 : string) (r : fasta_record) :
  h1 <> EmptyString ->
  fill ((h1, s1), (h2, s2)) r =
  ((h1, s1), (header_text r, s2 ++ sequence r)).
Proof.
  intros H; apply String.eqb_neq in H; unfold fill; now rewrite H.
Qed.

Lemma fill_at_most_two (class : list fasta_record) :
  (List.length class <= 2)%nat ->
  first_header_given class = true ->
  fold_left fill class empty_slots =
  (slot_of (nth_error class 0), slot_of (nth_error class 1)).
Proof.
  destruct class as [|r1 [|r2 [|r3 rest]]]; cbn [List.length]; intros Hl Hh;
    try lia; try reflexivity.
  unfold first_header_given in Hh.
  apply negb_true_iff, String.eqb_neq in Hh.
  cbn [fold_left nth_error slot_of].
  now rewrite fill_empty, fill_claimed.
Qed.

Lemma fill_more_than_two (class : list fasta_record) :
  (2 < List.length class)%nat ->
  header_given_by_second class = true ->
  later_records_appended class (snd (fold_left fill class empty_slots)).
Proof.
  destruct class as [|r1 [|r2 [|r3 rest]]]; cbn [List.length]; intros Hl Hh;
    try lia.
  unfold header_given_by_second in Hh; cbn [firstn existsb] in Hh.
  rewrite orb_false_r in Hh.
  unfold later_records_appended.
  cbn [fold_left skipn]; rewrite fill_empty.
  destruct (header_text r1 =? "")%string eqn:E1.
  - cbn [negb orb] in Hh; apply negb_true_iff, String.eqb_neq in Hh.
    apply String.eqb_eq in E1; rewrite E1, fill_unclaimed.
    rewrite (fill_claimed _ _ _ _ r3 Hh), (fill_second rest _ _ _ _ Hh).
    cbn [fst snd]; split; [reflexivity|].
    exists EmptyString; unfold sequences; cbn [map fold_right].
    now rewrite append_assoc.
  - apply String.eqb_neq in E1.
    rewrite (fill_claimed _ _ _ _ r2 E1), (fill_claimed _ _ _ _ r3 E1).
    rewrite (fill_second rest _ _ _ _ E1).
    cbn [fst snd]; split; [reflexivity|].
    exists (sequence r2); unfold sequences; cbn [map fold_right].
    now rewrite !append_assoc.
Qed.

(** With a prefix that is not empty, a header that contains it is not
    empty: the first record of the true class always claims the first
    slot. *)
Lemma true_record_header (prefix l : string) :
  prefix <> EmptyString ->
  is_true_record prefix l = true ->
  substr l 1 <> EmptyString.
Proof.
  intros Hp; unfold is_true_record, find.
  destruct l as [|c [|c' s]]; cbn [String.index].
  - discriminate.
  - destruct prefix; [contradiction | discriminate].
  - intros _; rewrite substr_one; discriminate.
Qed.

Lemma true_class_headers_given (prefix : string) (lines : list string) :
  prefix <> EmptyString ->
  Forall (fun r => header_text r <> EmptyString) (true_records prefix lines).
Proof.
  intros Hp; apply Forall_forall; intros r Hr.
  apply filter_In in Hr; destruct Hr as [_ Hr].
  now apply (true_record_header prefix).
Qed.

(** C3, amended: when each class has at most two records and the first
    record of each class has a header that is not empty, the first two
    records whose header contains the prefix are true haplotypes 1 and 2
    and the first two other records are test haplotypes 1 and 2, in file
    order. *)
Theorem first_two_records_assigned (prefix : string) (lines : list string) :
  (List.length (true_records prefix lines) <= 2)%nat ->
  (List.length (test_records prefix lines) <= 2)%nat ->
  first_header_given (true_records prefix lines) = true ->
  first_header_given (test_records prefix lines) = true ->
  first_two_assigned prefix lines.
Proof.
  intros Lt Le Ht He.
  destruct (read_lines_slots prefix lines) as [St Se].
  rewrite (fill_at_most_two _ Lt Ht) in St.
  rewrite (fill_at_most_two _ Le He) in Se.
  apply pair_equal_spec in St, Se.
  unfold first_two_assigned; tauto.
Qed.

(** C10, amended: in a class with more than two records where one of the
    first two has a header that is not empty, the records after the second
    are appended, in file order, to the sequence of the second slot of the
    class, and the last of them gives that slot's header. *)
Theorem later_records_join_second_slot (prefix : string)
  (lines : list string) (c : record_class) :
  (2 < List.length (class_records c prefix lines))%nat ->
  header_given_by_second (class_records c prefix lines) = true ->
  later_records_appended (class_records c prefix lines)
    (second_slot c (read_lines prefix lines initial_alignment)).
Proof.
  intros Hl Hh.
  destruct (read_lines_slots prefix lines) as [St Se].
  pose proof (fill_more_than_two _ Hl Hh) as H.
  destruct c; cbn [class_records second_slot] in *;
    [rewrite <- St in H | rewrite <- Se in H]; exact H.
Qed.

(** ** Options and the exit code *)

(** One option: it leaves [helpflag], or stores the code of the failure
    kind it presents. *)
Lemma parse_option_helpflag (o : options) (r : getopt_return) :
  let h := helpflag (parse_option o r) in
  (h = helpflag o /\
   asks_help r = false /\ lacks_prefix r = false /\ is_invalid r = false) \/
  (h = 1 /\ asks_help r = true) \/
  (h = 3 /\ lacks_prefix r = true) \/
  (h = 4 /\ is_invalid r = true).
Proof.
  destruct r as [[|]|v arg];
    cbn [parse_option asks_help lacks_prefix is_invalid helpflag];
    [right; left; auto | left; auto |].
  change (char_code "h") with 104; change (char_code "o") with 111;
    change (char_code "p") with 112.
  destruct (Z.eqb_spec v 0), (Z.eqb_spec v 104), (Z.eqb_spec v 111),
    (Z.eqb_spec v 112); try lia; destruct arg;
    cbn [helpflag negb andb]; auto 7.
Qed.




(** [main], by its operand, [helpflag] and the end of the stream. *)
Lemma main_result (inv : invocation) :
  main inv =
  match argument inv with
  | NoOperand => Return 6 UsageText
  | Unreadable => Return 5 UsageText
  | Opened f =>
      if helpflag (parsed inv) =? 0 then
        if eof f then
          match classify (true_one (loaded inv)) (true_two (loaded inv))
                  (test_one (loaded inv)) (test_two (loaded inv))
                  (negb (position_output_flag (parsed inv) =? 0)) with
          | Some st => Return 0 (Results st)
          | None => Undefined
          end
        else Return 7 Nothing
      else Return (helpflag (parsed inv)) UsageText
  end.
Proof.
  unfold main, loaded; fold (parsed inv).
  destruct (argument inv) as [| |f]; cbn [helpflag negb Z.eqb];
    try reflexivity.
  cbn [input_alignment].
  destruct (helpflag (parsed inv) =? 0); cbn [negb]; [|reflexivity].
  destruct (eof f); reflexivity.
Qed.




(** ** The properties on concrete alignments and inputs *)

(** Discharges a side condition on a concrete input by evaluation. *)
Ltac concrete :=
  first
    [ reflexivity
    | let H := fresh in intro H; discriminate H
    | unfold in_range; cbn; lia
    | left; reflexivity
    | right; reflexivity ].

(** Scenario A, second column: nothing changes. *)
Lemma homozygous_equal_calls_witness :
  exists st st',
    processed "AATG" "AATG" "AATG" "AATG" true 1 st st' /\
    counters st' = counters st /\
    test_one_id st' = test_one_id st /\
    test_two_id st' = test_two_id st.
Proof.
  apply (homozygous_equal_calls_change_nothing
           "AATG" "AATG" "AATG" "AATG" true)
    with (t1 := "A"%char) (t2 := "A"%char) (e1 := "A"%char) (e2 := "A"%char);
    concrete.
Defined.

(** Scenario D: a gap in test haplotype 1 opposite a base in test
    haplotype 2. *)
Lemma homozygous_gap_witness :
  exists st st',
    processed "A" "A" "-" "A" false 0 st st' /\
    counters st' =
      [ test_one_switches st; test_two_switches st;
        test_one_false_snps st; test_two_false_snps st;
        test_one_false_indels st + (if ("-" =? gap)%char then 0 else 1);
        test_two_false_indels st + (if ("A" =? gap)%char then 0 else 1);
        test_one_bad_calls st; test_two_bad_calls st ] /\
    ("-"%char = gap -> "A"%char = gap -> counters st' = counters st) /\
    test_one_id st' = test_one_id st /\
    test_two_id st' = test_two_id st.
Proof.
  apply (homozygous_gap_charges_false_indels "A" "A" "-" "A" false)
    with (t1 := "A"%char) (t2 := "A"%char); concrete.
Defined.

Lemma homozygous_disagreement_witness :
  exists st st',
    processed "GA" "GA" "GA" "GC" true 1 st st' /\
    counters st' =
      [ test_one_switches st; test_two_switches st;
        test_one_false_snps st + (if ("A" =? "A")%char then 0 else 1);
        test_two_false_snps st + (if ("A" =? "A")%char then 1 else 0);
        test_one_false_indels st; test_two_false_indels st;
        test_one_bad_calls st; test_two_bad_calls st ] /\
    test_one_id st' = test_one_id st /\
    test_two_id st' = test_two_id st.
Proof.
  apply (homozygous_disagreement_charges_one_false_snp
           "GA" "GA" "GA" "GC" true)
    with (t2 := "A"%char) (e2 := "C"%char); concrete.
Defined.

(** Scenario E: test haplotype 1 calls a base that neither true haplotype
    has. *)
Lemma bad_call_witness :
  exists st st',
    processed "AC" "AG" "AT" "AC" true 1 st st' /\
    ("T"%char <> "C"%char -> "T"%char <> "G"%char ->
     test_one_bad_calls st' = test_one_bad_calls st + 1 /\
     test_one_id st' = test_one_id st) /\
    ("C"%char <> "C"%char -> "C"%char <> "G"%char ->
     test_two_bad_calls st' = test_two_bad_calls st + 1 /\
     test_two_id st' = test_two_id st).
Proof.
  apply (bad_call_keeps_phase_identity "AC" "AG" "AT" "AC" true); concrete.
Defined.

Lemma phase_identity_kept_witness :
  exists st st',
    processed "CA" "G-" "CA" "GA" true 1 st st' /\
    test_one_id st' = test_one_id st /\
    test_two_id st' = test_two_id st.
Proof.
  apply (phase_identity_kept_outside_het_snps "CA" "G-" "CA" "GA" true)
    with (t1 := "A"%char) (t2 := "-"%char) (e1 := "A"%char) (e2 := "A"%char);
    try concrete.
  right; right; reflexivity.
Defined.

Lemma indel_charges_witness :
  exists st st',
    processed "A" "-" "C" "G" false 0 st st' /\
    counters st' =
      [ test_one_switches st; test_two_switches st;
        test_one_false_snps st +
          (if matches_neither "A" "-" "C" then 1 else 0);
        test_two_false_snps st +
          (if negb (matches_neither "A" "-" "C") && matches_neither "A" "-" "G"
           then 1 else 0);
        test_one_false_indels st; test_two_false_indels st;
        test_one_bad_calls st; test_two_bad_calls st ].
Proof.
  apply (indel_charges_first_mismatching_haplotype "A" "-" "C" "G" false);
    concrete.
Defined.

(** C1 as stated fails where both test bases match neither true base: the
    column charges test haplotype 1 only. *)
Lemma indel_charges_each_fails : ~ indel_charges_each "A" "-" "C" "G" false 0.
Proof.
  intros H.
  destruct (H "A"%char "-"%char "C"%char "G"%char initial_state
              (column_step false 0 "A" "-" "C" "G" initial_state)
              eq_refl (conj eq_refl eq_refl))
    as [_ H2]; try concrete.
  specialize (H2 eq_refl); vm_compute in H2; discriminate H2.
Qed.

(** Scenario C: both test haplotypes change the true haplotype they
    match between the two heterozygous SNP columns. *)
Lemma switch_count_witness :
  exists st, classify "ACT" "AGA" "ACA" "AGT" false = Some st /\
    test_one_switches st =
      SwitchSpec.switch_columns "ACT" "AGA" "ACA" 3 /\
    test_two_switches st =
      SwitchSpec.switch_columns "ACT" "AGA" "AGT" 3 /\
    forall i st0 st1,
      processed "ACT" "AGA" "ACA" "AGT" false i st0 st1 ->
      (test_one_id st0 = 0 ->
       test_one_switches st1 = test_one_switches st0) /\
      (test_two_id st0 = 0 ->
       test_two_switches st1 = test_two_switches st0).
Proof.
  apply (switch_count_is_number_of_phase_changes "ACT" "AGA" "ACA" "AGT" false);
    concrete.
Defined.

Example switch_columns_scenario_C :
  SwitchSpec.switch_columns "ACT" "AGA" "ACA" 3 = 1 /\
  option_map test_one_switches (classify "ACT" "AGA" "ACA" "AGT" false)
    = Some 1.
Proof. split; reflexivity. Qed.

Lemma first_two_records_witness : first_two_assigned "hapT" four_records.
Proof.
  apply first_two_records_assigned;
    first [reflexivity | vm_compute; lia].
Defined.

(** C3 as stated fails with a third record in a class, and with a first
    record whose header is empty. *)
Lemma first_two_assigned_fails :
  ~ first_two_assigned "T" three_true_records /\
  ~ first_two_assigned "T" empty_test_header.
Proof.
  split; intros (H1 & H2 & H3 & H4).
  - vm_compute in H2; discriminate H2.
  - vm_compute in H3; discriminate H3.
Qed.

Lemma later_records_witness :
  later_records_appended (class_records TrueClass "T" three_true_records)
    (second_slot TrueClass
       (read_lines "T" three_true_records initial_alignment)).
Proof.
  apply later_records_join_second_slot;
    first [reflexivity | vm_compute; lia].
Defined.

(** C10 as stated fails when the first two records of a class have empty
    headers: the third record goes to the first slot. *)
Lemma later_records_appended_fails :
  (2 < List.length (class_records TestClass "T" two_empty_headers))%nat /\
  ~ later_records_appended (class_records TestClass "T" two_empty_headers)
      (second_slot TestClass
         (read_lines "T" two_empty_headers initial_alignment)).
Proof.
  split; [vm_compute; lia|].
  intros [_ [before Hb]].
  change (snd (second_slot TestClass
                 (read_lines "T" two_empty_headers initial_alignment)))
    with "T" in Hb.
  change (sequences (skipn 2 (class_records TestClass "T" two_empty_headers)))
    with "GT" in Hb.
  apply (f_equal String.length) in Hb; rewrite append_length in Hb.
  cbn [String.length] in Hb; lia.
Qed.



(** The exit codes on concrete command lines. *)
Example exit_codes_examples :
  let ok := Opened (mkStream four_records true) in
  let p := PrefixOption "hapT" in
  let run ws op := main (invocation_of (mkCommandLine ws op)) in
  (exists st, run [p] ok = Return 0 (Results st)) /\
  run [p; ShortHelp] ok = Return 1 UsageText /\
  run [LongHelp; p] ok = Return 1 UsageText /\
  run [p; UnknownOption] ok = Return 4 UsageText /\
  run [PrefixWithoutArgument] ok = Return 4 UsageText /\
  run [p] Unreadable = Return 5 UsageText /\
  run [p] NoOperand = Return 6 UsageText /\
  run [LongHelp] NoOperand = Return 6 UsageText /\
  run [p] (Opened (mkStream four_records false)) = Return 7 Nothing.
Proof.
  cbv zeta; split; [eexists; vm_compute; reflexivity|].
  repeat split; reflexivity.
Qed.

(** The indel branch does not read [test_two[i]] when test haplotype 1
    matches neither true base: a run with a short second test haplotype
    can be defined. *)
Example unread_test_two_defined :
  subscript "A" 2 = None /\
  option_map counters (classify "AAA" "AA-" "AAC" "A" false)
  = Some [0; 0; 1; 1; 0; 0; 0; 0].
Proof. split; reflexivity. Qed.

(** * Further properties *)

(** ** The column loop as a whole *)

Lemma column_step_ids flag i t1 t2 e1 e2 st :
  is_phase_id (test_one_id st) -> is_phase_id (test_two_id st) ->
  is_phase_id (test_one_id (column_step flag i t1 t2 e1 e2 st)) /\
  is_phase_id (test_two_id (column_step flag i t1 t2 e1 e2 st)).
Proof.
  unfold is_phase_id; intros H1 H2; column_cases; auto.
Qed.

Lemma run_ids tr1 tr2 te1 te2 flag (n : nat) :
  forall st, iterations tr1 tr2 te1 te2 flag n = Some st ->
    is_phase_id (test_one_id st) /\ is_phase_id (test_two_id st).
Proof.
  induction n as [|i IH]; intros st H.
  - inversion H; subst; unfold is_phase_id; cbn; auto.
  - apply iterations_step in H.
    destruct H as (st0 & t1 & t2 & e1 & e2 & H0 & _ & _ & _ & ->).
    destruct (IH _ H0); now apply column_step_ids.
Qed.

Section WholeRun.

Variables tr1 tr2 te1 te2 : string.
Variable flag : bool.
Hypothesis Hrange : in_range tr1 tr2 te1 te2.

(** X1: a run whose subscripts are within reach ends, with every counter
    between 0 and the number of columns and every phase identity 0, 1 or
    2. *)
Theorem counters_within_columns :
  exists st, classify tr1 tr2 te1 te2 flag = Some st /\
    Forall (fun c => 0 <= c <= Z.of_nat (String.length tr1)) (counters st) /\
    is_phase_id (test_one_id st) /\ is_phase_id (test_two_id st).
Proof.
  destruct (run_counters tr1 tr2 te1 te2 flag Hrange (String.length tr1))
    as (st & Hr & Hb); [lia|].
  exists st; split; [exact Hr|]; split; [exact Hb|].
  exact (run_ids _ _ _ _ _ _ _ Hr).
Qed.

(** X2: a column never lowers a counter and adds at most one to it. *)
Theorem column_adds_at_most_one (i : nat) :
  (i < String.length tr1)%nat ->
  exists st st', processed tr1 tr2 te1 te2 flag i st st' /\
    Forall2 (fun c c' => c' = c \/ c' = c + 1) (counters st) (counters st').
Proof.
  intros Hi.
  destruct (column_at_within tr1 tr2 te1 te2 Hrange i Hi)
    as (t1 & t2 & e1 & e2 & Hc).
  destruct (run_column tr1 tr2 te1 te2 flag Hrange i t1 t2 e1 e2 Hi Hc)
    as (st & Hl & Hp).
  exists st, (column_step flag i t1 t2 e1 e2 st); split; [exact Hp|].
  pose proof (column_step_counters flag i t1 t2 e1 e2 st) as Hs.
  unfold below_limit in Hl; revert Hl Hs.
  generalize (counters st), (counters (column_step flag i t1 t2 e1 e2 st)).
  intros l l' Hl Hs; induction Hs as [|c c' l l' Hc' Hs IHs]; [constructor|].
  apply Forall_cons_iff in Hl; destruct Hl as [[H0 H1] Hl].
  constructor; [|auto].
  destruct Hc' as [->| ->]; [auto|right; now apply incr_exact].
Qed.

End WholeRun.

(** ** The position output flag *)

Lemma verdict_step f1 f2 i t1 t2 e1 e2 st1 st2 :
  verdict st1 = verdict st2 ->
  verdict (column_step f1 i t1 t2 e1 e2 st1) =
  verdict (column_step f2 i t1 t2 e1 e2 st2).
Proof.
  destruct st1, st2; unfold verdict, counters; cbn.
  intros H; inversion H; subst; clear H.
  column_cases; reflexivity.
Qed.

(** X3: the position output flag changes neither the counters nor the
    phase identities of a run. *)
Theorem verdict_independent_of_flag tr1 tr2 te1 te2 :
  option_map verdict (classify tr1 tr2 te1 te2 true) =
  option_map verdict (classify tr1 tr2 te1 te2 false).
Proof.
  unfold classify; induction (String.length tr1) as [|i IH];
    [reflexivity|].
  cbn [iterations].
  destruct (iterations tr1 tr2 te1 te2 true i) as [st1|],
    (iterations tr1 tr2 te1 te2 false i) as [st2|]; try discriminate;
    [|reflexivity].
  destruct (subscript tr1 i) as [t1|], (subscript tr2 i) as [t2|],
    (subscript te1 i) as [e1|]; try reflexivity.
  destruct (reads_test_two t1 t2 e1); [destruct (subscript te2 i)|];
    try reflexivity;
    cbn [option_map] in *; f_equal; apply verdict_step; congruence.
Qed.

Lemma silent_step i t1 t2 e1 e2 st :
  cout (column_step false i t1 t2 e1 e2 st) = cout st.
Proof. column_cases; reflexivity. Qed.

Lemma silent_run tr1 tr2 te1 te2 (n : nat) :
  forall st, iterations tr1 tr2 te1 te2 false n = Some st -> cout st = [].
Proof.
  induction n as [|i IH]; intros st H.
  - now inversion H.
  - apply iterations_step in H.
    destruct H as (st0 & t1 & t2 & e1 & e2 & H0 & _ & _ & _ & ->).
    rewrite silent_step; auto.
Qed.

(** ** The event lines *)

Lemma count_kind_snoc (k : event_kind) (l : list message) (m : message) :
  count_kind k (l ++ [m]) =
  count_kind k l + (if event_kind_eqb (kind_of m) k then 1 else 0).
Proof. induction l as [|m' l IH]; cbn [app count_kind]; lia. Qed.

Lemma lines_match_step i t1 t2 e1 e2 st :
  below_limit st ->
  lines_match_counters st ->
  lines_match_counters (column_step true i t1 t2 e1 e2 st).
Proof.
  unfold lines_match_counters; intros Hl (H1 & H2 & H3 & H4 & H5 & H6).
  split_counters.
  column_cases; rewrite ?count_kind_snoc;
    cbn [kind_of event_kind_eqb]; exact_incr; repeat split; lia.
Qed.

Section Trace.

Variables tr1 tr2 te1 te2 : string.
Hypothesis Hrange : in_range tr1 tr2 te1 te2.

Lemma run_lines_match (n : nat) :
  (n <= String.length tr1)%nat ->
  exists st, iterations tr1 tr2 te1 te2 true n = Some st /\
    lines_match_counters st.
Proof.
  induction n as [|i IH]; intros Hn.
  - exists initial_state; split; [reflexivity|].
    unfold lines_match_counters; cbn; auto 10.
  - destruct IH as (st & Hr & Hm); [lia|].
    destruct (column_at_within tr1 tr2 te1 te2 Hrange i)
      as (t1 & t2 & e1 & e2 & Hc); [lia|].
    destruct (run_column tr1 tr2 te1 te2 true Hrange i t1 t2 e1 e2)
      as (st0 & Hl & Hr0 & HS); [lia|assumption|].
    assert (st0 = st) by congruence; subst st0.
    eexists; split; [exact HS|]. now apply lines_match_step.
Qed.

(** X4: with position output on, the run prints one switch line per
    counted switch and one no-match line per counted bad call, for each
    test haplotype, and as many false indel and false SNP lines as the two
    haplotypes' counters add up to. *)
Theorem event_lines_match_counters :
  exists st, classify tr1 tr2 te1 te2 true = Some st /\
    lines_match_counters st.
Proof. apply run_lines_match; lia. Qed.

End Trace.

(** What a column prints carries its 1-based position. *)
Lemma column_step_lines flag i t1 t2 e1 e2 st :
  exists lines,
    cout (column_step flag i t1 t2 e1 e2 st) = (cout st ++ lines)%list /\
    Forall (fun m => position_of m = Z.of_nat i + 1) lines.
Proof.
  column_cases;
    repeat rewrite <- app_assoc; cbn [app];
    first [ exists []; split; [now rewrite app_nil_r | constructor]
          | eexists; split; [reflexivity | repeat constructor] ].
Qed.

Lemma sorted_app (l l' : list Z) :
  StronglySorted Z.le l -> StronglySorted Z.le l' ->
  Forall (fun x => Forall (Z.le x) l') l ->
  StronglySorted Z.le (l ++ l')%list.
Proof.
  induction 1 as [|x l Hs IH Hx]; intros Hl' Hall; cbn [app]; [assumption|].
  apply Forall_cons_iff in Hall; destruct Hall as [Hx' Hall].
  constructor; [auto|]. apply Forall_app; auto.
Qed.

Lemma sorted_constant (x : Z) (l : list Z) :
  Forall (fun y => y = x) l -> StronglySorted Z.le l.
Proof.
  induction 1 as [|y l Hy Hl IH]; constructor; [assumption|].
  subst y; eapply Forall_impl; [|exact Hl]; cbv beta; intros; lia.
Qed.

(** X5: every event line of a run reports a position between 1 and the
    number of columns, and the lines come in the order of the columns. *)
Theorem event_lines_in_column_order tr1 tr2 te1 te2 flag (n : nat) st :
  iterations tr1 tr2 te1 te2 flag n = Some st ->
  Forall (fun p => 1 <= p <= Z.of_nat n) (map position_of (cout st)) /\
  StronglySorted Z.le (map position_of (cout st)).
Proof.
  revert st; induction n as [|i IH]; intros st H.
  - inversion H; subst; cbn; split; constructor.
  - apply iterations_step in H.
    destruct H as (st0 & t1 & t2 & e1 & e2 & H0 & _ & _ & _ & ->).
    destruct (IH _ H0) as [Hb Hs].
    destruct (column_step_lines flag i t1 t2 e1 e2 st0) as (ls & -> & Hp).
    rewrite map_app.
    assert (Hq : Forall (fun p => p = Z.of_nat i + 1) (map position_of ls)).
    { apply Forall_map; exact Hp. }
    split.
    + apply Forall_app; split.
      * eapply Forall_impl; [|exact Hb]; cbv beta; intros; lia.
      * eapply Forall_impl; [|exact Hq]; cbv beta; intros; lia.
    + apply sorted_app; [exact Hs | now apply (sorted_constant _ _ Hq) |].
      eapply Forall_impl; [|exact Hb]; cbv beta; intros p Hp'.
      eapply Forall_impl; [|exact Hq]; cbv beta; intros; lia.
Qed.

(** ** Particular alignments *)

(** A test haplotype equal to a true haplotype is never charged. *)
Lemma faithful_step flag i t1 t2 st :
  counters st = zero_counters ->
  test_one_id st = 0 \/ test_one_id st = 1 ->
  test_two_id st = 0 \/ test_two_id st = 2 ->
  let st' := column_step flag i t1 t2 t1 t2 st in
  counters st' = zero_counters /\
  (test_one_id st' = 0 \/ test_one_id st' = 1) /\
  (test_two_id st' = 0 \/ test_two_id st' = 2).
Proof.
  intros Hc H1 H2 st'; subst st'.
  destruct st; unfold counters, zero_counters in *; cbn in Hc, H1, H2.
  injection Hc; intros; subst.
  destruct H1, H2; subst;
    column_cases; char_facts; subst; try congruence; auto.
Qed.

Lemma swapped_step flag i t1 t2 st :
  counters st = zero_counters ->
  test_one_id st = 0 \/ test_one_id st = 2 ->
  test_two_id st = 0 \/ test_two_id st = 1 ->
  let st' := column_step flag i t1 t2 t2 t1 st in
  counters st' = zero_counters /\
  (test_one_id st' = 0 \/ test_one_id st' = 2) /\
  (test_two_id st' = 0 \/ test_two_id st' = 1).
Proof.
  intros Hc H1 H2 st'; subst st'.
  destruct st; unfold counters, zero_counters in *; cbn in Hc, H1, H2.
  injection Hc; intros; subst.
  destruct H1, H2; subst;
    column_cases; char_facts; subst; try congruence; auto.
Qed.

Lemma column_at_faithful tr1 tr2 (i : nat) :
  (i < String.length tr1)%nat ->
  (String.length tr1 <= S (String.length tr2))%nat ->
  exists t1 t2,
    column_at tr1 tr2 tr1 tr2 i = Some (t1, t2, t1, t2) /\
    column_at tr1 tr2 tr2 tr1 i = Some (t1, t2, t2, t1).
Proof.
  intros Hi Hl.
  destruct (subscript_within tr1 i) as [t1 E1]; [lia|].
  destruct (subscript_within tr2 i) as [t2 E2]; [lia|].
  exists t1, t2; unfold column_at; rewrite E1, E2; auto.
Qed.

(** X6: test haplotypes that are the two true haplotypes, in either
    order, end with all eight counters at zero. *)
Theorem exact_haplotypes_score_zero tr1 tr2 flag :
  (String.length tr1 <= S (String.length tr2))%nat ->
  (exists st, classify tr1 tr2 tr1 tr2 flag = Some st /\
     counters st = zero_counters) /\
  (exists st, classify tr1 tr2 tr2 tr1 flag = Some st /\
     counters st = zero_counters).
Proof.
  intros Hl; unfold classify.
  assert (H : forall n, (n <= String.length tr1)%nat ->
    (exists st, iterations tr1 tr2 tr1 tr2 flag n = Some st /\
       counters st = zero_counters /\
       (test_one_id st = 0 \/ test_one_id st = 1) /\
       (test_two_id st = 0 \/ test_two_id st = 2)) /\
    (exists st, iterations tr1 tr2 tr2 tr1 flag n = Some st /\
       counters st = zero_counters /\
       (test_one_id st = 0 \/ test_one_id st = 2) /\
       (test_two_id st = 0 \/ test_two_id st = 1))).
  { induction n as [|i IH]; intros Hn.
    - split; exists initial_state; cbn; auto.
    - destruct IH as [(s1 & R1 & C1 & A1 & B1) (s2 & R2 & C2 & A2 & B2)];
        [lia|].
      destruct (column_at_faithful tr1 tr2 i) as (t1 & t2 & K1 & K2);
        [lia|assumption|].
      split; eexists; (split; [eapply run_step; eassumption|]).
      + now apply faithful_step.
      + now apply swapped_step. }
  destruct (H (String.length tr1) (le_n _))
    as [(s1 & R1 & C1 & _) (s2 & R2 & C2 & _)].
  split; eauto.
Qed.

(** ** Columns by kind *)

Lemma het_snp_column_chars tr1 tr2 te1 te2 i t1 t2 e1 e2 :
  column_at tr1 tr2 te1 te2 i = Some (t1, t2, e1, e2) ->
  SwitchSpec.het_snp_column tr1 tr2 i = is_het_snp t1 t2.
Proof.
  intros Hc; apply column_at_subscripts in Hc.
  destruct Hc as (E1 & E2 & _).
  unfold SwitchSpec.het_snp_column, is_het_snp; rewrite E1, E2.
  now rewrite andb_assoc.
Qed.

(** The counters that a column of each kind can raise. *)
Lemma accounting_step flag i t1 t2 e1 e2 st :
  below_limit st ->
  let st' := column_step flag i t1 t2 e1 e2 st in
  let h := if is_het_snp t1 t2 then 1 else 0 in
  test_one_switches st' + test_one_bad_calls st' <=
    test_one_switches st + test_one_bad_calls st + h /\
  test_two_switches st' + test_two_bad_calls st' <=
    test_two_switches st + test_two_bad_calls st + h /\
  test_one_false_snps st' + test_two_false_snps st' +
    test_one_false_indels st' + test_two_false_indels st' <=
    test_one_false_snps st + test_two_false_snps st +
    test_one_false_indels st + test_two_false_indels st + (1 - h).
Proof.
  intros Hl st' h; subst st' h; split_counters.
  column_cases; exact_incr; char_facts; subst; try congruence;
    repeat split; lia.
Qed.

Section Accounting.

Variables tr1 tr2 te1 te2 : string.
Variable flag : bool.
Hypothesis Hrange : in_range tr1 tr2 te1 te2.

Lemma run_accounting (n : nat) :
  (n <= String.length tr1)%nat ->
  exists st, iterations tr1 tr2 te1 te2 flag n = Some st /\
    test_one_switches st + test_one_bad_calls st <=
      het_snp_columns tr1 tr2 n /\
    test_two_switches st + test_two_bad_calls st <=
      het_snp_columns tr1 tr2 n /\
    test_one_false_snps st + test_two_false_snps st +
      test_one_false_indels st + test_two_false_indels st <=
      Z.of_nat n - het_snp_columns tr1 tr2 n.
Proof.
  induction n as [|i IH]; intros Hn.
  - exists initial_state; cbn; repeat split; lia.
  - destruct IH as (st & Hr & A & B & C); [lia|].
    destruct (column_at_within tr1 tr2 te1 te2 Hrange i)
      as (t1 & t2 & e1 & e2 & Hc); [lia|].
    destruct (run_column tr1 tr2 te1 te2 flag Hrange i t1 t2 e1 e2)
      as (st0 & Hl & Hr0 & HS); [lia|assumption|].
    assert (st0 = st) by congruence; subst st0.
    eexists; split; [exact HS|].
    destruct (accounting_step flag i t1 t2 e1 e2 st Hl) as (A' & B' & C').
    cbn [het_snp_columns]; rewrite (het_snp_column_chars _ _ _ _ _ _ _ _ _ Hc).
    destruct (is_het_snp t1 t2); repeat split; lia.
Qed.

(** X7: for each test haplotype, switches and bad calls together are at
    most the heterozygous SNP columns; the false SNPs and false indels of
    both haplotypes together are at most the other columns. *)
Theorem counters_by_column_kind :
  exists st, classify tr1 tr2 te1 te2 flag = Some st /\
    test_one_switches st + test_one_bad_calls st <=
      het_snp_columns tr1 tr2 (String.length tr1) /\
    test_two_switches st + test_two_bad_calls st <=
      het_snp_columns tr1 tr2 (String.length tr1) /\
    test_one_false_snps st + test_two_false_snps st +
      test_one_false_indels st + test_two_false_indels st <=
      Z.of_nat (String.length tr1) -
      het_snp_columns tr1 tr2 (String.length tr1).
Proof. apply run_accounting; lia. Qed.

End Accounting.

(** ** Sequences longer than the first true haplotype *)

Lemma subscript_append (s x : string) (i : nat) :
  (i < String.length s)%nat -> subscript (s ++ x) i = subscript s i.
Proof.
  intros Hi; unfold subscript.
  rewrite <- (append_correct1 s x i Hi).
  destruct (String.get i s) as [c|] eqn:E; [reflexivity|].
  apply get_none_length in E; lia.
Qed.

(** X8: the loop runs over the length of the first true haplotype: what
    the other three sequences hold beyond it is not read. *)
Theorem longer_sequences_ignored tr1 tr2 te1 te2 x y z flag :
  (String.length tr1 <= String.length tr2)%nat ->
  (String.length tr1 <= String.length te1)%nat ->
  (String.length tr1 <= String.length te2)%nat ->
  classify tr1 (tr2 ++ x) (te1 ++ y) (te2 ++ z) flag =
  classify tr1 tr2 te1 te2 flag.
Proof.
  intros H2 H3 H4; unfold classify.
  assert (H : forall n, (n <= String.length tr1)%nat ->
    iterations tr1 (tr2 ++ x) (te1 ++ y) (te2 ++ z) flag n =
    iterations tr1 tr2 te1 te2 flag n).
  { induction n as [|i IH]; intros Hn; [reflexivity|].
    cbn [iterations]; rewrite IH by lia.
    now rewrite !subscript_append by lia. }
  now apply H.
Qed.

(** ** Lines of the input *)

Lemma read_line_empty (prefix : string) (a : alignment) :
  read_line prefix a "" = a.
Proof. unfold read_line; cbn. apply append_line_empty. Qed.

(** X9: empty lines, wherever they stand, change nothing of what is
    read. *)
Theorem blank_lines_ignored (prefix : string) (lines : list string) :
  forall a,
    read_lines prefix (filter nonempty lines) a = read_lines prefix lines a.
Proof.
  unfold read_lines; induction lines as [|l lines IH]; intros a;
    [reflexivity|].
  cbn [filter fold_left]; unfold nonempty at 1.
  destruct (String.eqb_spec l ""); cbn [negb fold_left].
  - subst l; now rewrite read_line_empty.
  - apply IH.
Qed.

Lemma is_header_append (x y : string) :
  is_header x = false -> is_header y = false -> is_header (x ++ y) = false.
Proof. destruct x; cbn; auto. Qed.

(** X10: a sequence line may be wrapped anywhere: one line [x ++ y] and
    the two lines [x], [y] read the same, when neither part starts with the
    header marker. *)
Theorem wrapping_irrelevant (prefix : string) (l1 l2 : list string)
  (x y : string) (a : alignment) :
  is_header x = false -> is_header y = false ->
  read_lines prefix (l1 ++ (x ++ y)%string :: l2)%list a =
  read_lines prefix (l1 ++ x :: y :: l2)%list a.
Proof.
  intros Hx Hy; unfold read_lines; rewrite !fold_left_app.
  cbn [fold_left]; f_equal.
  unfold read_line; rewrite Hx, Hy, (is_header_append x y Hx Hy).
  now rewrite append_line_twice.
Qed.

Lemma append_line_initial (l : string) :
  append_line initial_alignment l = initial_alignment.
Proof. reflexivity. Qed.

(** Without a header line nothing is kept. *)
Lemma read_headerless (prefix : string) (lines : list string) :
  Forall (fun l => is_header l = false) lines ->
  read_lines prefix lines initial_alignment = initial_alignment.
Proof.
  unfold read_lines; induction 1 as [|l lines Hl Hp IH]; [reflexivity|].
  cbn [fold_left]; unfold read_line at 2; rewrite Hl.
  now rewrite append_line_initial.
Qed.

(** X11: lines before the first header line are dropped. *)
Theorem text_before_first_header_dropped (prefix : string)
  (pre lines : list string) :
  Forall (fun l => is_header l = false) pre ->
  read_lines prefix (pre ++ lines) initial_alignment =
  read_lines prefix lines initial_alignment.
Proof.
  intros H; apply (read_headerless prefix) in H.
  unfold read_lines in *; rewrite fold_left_app; now rewrite H.
Qed.

(** ** The empty prefix *)

Lemma header_contains_empty_prefix (l : string) :
  is_header l = true -> is_true_record "" l = true.
Proof.
  unfold is_true_record, find; destruct l as [|c s]; [discriminate|].
  intros _; cbn [String.index].
  destruct s as [|b s]; cbn [String.index]; [reflexivity|].
  assert (E : String.prefix "" (String b s) = true)
    by (apply prefix_correct; reflexivity).
  now rewrite E.
Qed.

Lemma records_have_headers (lines : list string) :
  Forall (fun r => is_header (header_line r) = true) (records lines).
Proof.
  unfold records; induction lines as [|l lines IH]; cbn [split_records].
  - constructor.
  - destruct (split_records lines) as [text rs]; cbn [snd] in IH.
    destruct (is_header l) eqn:E; cbn [snd]; [constructor|]; auto.
Qed.

Lemma empty_prefix_no_test_records (lines : list string) :
  test_records "" lines = [].
Proof.
  unfold test_records.
  pose proof (records_have_headers lines) as H.
  induction H as [|r rs Hr Hrs IH]; [reflexivity|].
  cbn [filter]; now rewrite (header_contains_empty_prefix _ Hr).
Qed.

Lemma empty_prefix_test_slots (lines : list string) :
  test_slots (read_lines "" lines initial_alignment) = empty_slots.
Proof.
  destruct (read_lines_slots "" lines) as [_ H].
  now rewrite empty_prefix_no_test_records in H.
Qed.

(** X12: with an empty prefix every header counts as a true haplotype:
    both test haplotypes and their headers stay empty. *)
Theorem empty_prefix_leaves_test_haplotypes_empty (lines : list string) :
  let a := read_lines "" lines initial_alignment in
  test_one_header a = "" /\ test_one a = "" /\
  test_two_header a = "" /\ test_two a = "".
Proof.
  cbv zeta; pose proof (empty_prefix_test_slots lines) as H.
  unfold test_slots, test_one_slot, test_two_slot, empty_slots in H.
  apply pair_equal_spec in H; destruct H as [Ha Hb].
  apply pair_equal_spec in Ha, Hb; tauto.
Qed.

(** ** Sequences shorter than the first true haplotype *)

Lemma get_some_length (s : string) (i : nat) (c : ascii) :
  String.get i s = Some c -> (i < String.length s)%nat.
Proof.
  revert i; induction s as [|c' s IH]; intros [|i] H; cbn in *;
    try discriminate; try lia.
  apply IH in H; lia.
Qed.

Lemma subscript_beyond (s : string) (i : nat) :
  (String.length s < i)%nat -> subscript s i = None.
Proof.
  intros H; unfold subscript.
  destruct (String.get i s) as [c|] eqn:E.
  - apply get_some_length in E; lia.
  - destruct (Nat.eqb_spec i (String.length s)); [lia|reflexivity].
Qed.

Lemma iterations_undefined tr1 tr2 te1 te2 flag (i n : nat) :
  subscript tr2 i = None \/ subscript te1 i = None -> (i < n)%nat ->
  iterations tr1 tr2 te1 te2 flag n = None.
Proof.
  intros Hc; induction n as [|n IH]; intros Hi; [lia|].
  cbn [iterations].
  destruct (Nat.eq_dec i n) as [->|Hne].
  - destruct (iterations tr1 tr2 te1 te2 flag n); [|reflexivity].
    destruct (subscript tr1 n); [|reflexivity].
    destruct Hc as [-> | ->]; [reflexivity|].
    now destruct (subscript tr2 n).
  - rewrite IH by lia; reflexivity.
Qed.

(** X13: when the second true haplotype or the first test haplotype is
    two or more characters shorter than the first true haplotype, the loop
    subscripts it beyond its end: the run has no defined result. *)
Theorem short_sequence_undefined tr1 tr2 te1 te2 flag :
  (String.length tr2 + 2 <= String.length tr1)%nat \/
  (String.length te1 + 2 <= String.length tr1)%nat ->
  classify tr1 tr2 te1 te2 flag = None.
Proof.
  intros [H|H]; unfold classify.
  - apply (iterations_undefined _ _ _ _ _ (S (String.length tr2))); [|lia].
    left; apply subscript_beyond; lia.
  - apply (iterations_undefined _ _ _ _ _ (S (String.length te1))); [|lia].
    right; apply subscript_beyond; lia.
Qed.

(** ** Options *)

Lemma last_cons (A : Type) (x d : A) (l : list A) :
  last (x :: l) d = last l x.
Proof.
  revert x d; induction l as [|y l IH]; intros x d; [reflexivity|].
  change (last (x :: y :: l) d) with (last (y :: l) d).
  now rewrite (IH y d), (IH y x).
Qed.

(** What the options leave in [true_prefix] and
    [position_output_flag]. *)
Lemma parse_prefix_and_flag (rs : list getopt_return) :
  forall o,
    true_prefix (fold_left parse_option rs o) =
      last (prefix_args rs) (true_prefix o) /\
    position_output_flag (fold_left parse_option rs o) =
      if existsb wants_positions rs then 1 else position_output_flag o.
Proof.
  induction rs as [|r rs IH]; intros o; [split; reflexivity|].
  cbn [fold_left existsb]; destruct (IH (parse_option o r)) as [Hp Hf].
  rewrite Hp, Hf; clear Hp Hf IH.
  unfold prefix_args; cbn [flat_map]; fold (prefix_args rs).
  destruct r as [[|]|v arg];
    cbn [parse_option wants_positions true_prefix position_output_flag
         app orb]; auto.
  - split; [reflexivity|]. now destruct (existsb wants_positions rs).
  - change (char_code "h") with 104; change (char_code "o") with 111;
      change (char_code "p") with 112.
    destruct (Z.eqb_spec v 0), (Z.eqb_spec v 104), (Z.eqb_spec v 111),
      (Z.eqb_spec v 112); try lia; destruct arg;
      cbn [true_prefix position_output_flag app orb];
      rewrite ?last_cons; split; try reflexivity;
      now destruct (existsb wants_positions rs).
Qed.

(** X14: the prefix in force is the argument of the last [-p] option; it
    is empty when there is none. *)
Theorem last_prefix_option_wins (inv : invocation) :
  true_prefix (parsed inv) = last (prefix_args (getopt_returns inv)) "".
Proof. apply (parse_prefix_and_flag (getopt_returns inv) initial_options). Qed.

(** X15: without an option that turns the position output on, a run that
    reports its results printed no event line. *)
Theorem no_event_lines_without_flag (inv : invocation) (s : Z) (st : state) :
  existsb wants_positions (getopt_returns inv) = false ->
  main inv = Return s (Results st) ->
  cout st = [].
Proof.
  intros Hw Hm; rewrite main_result in Hm.
  destruct (argument inv) as [| |f]; try discriminate.
  destruct (helpflag (parsed inv) =? 0); [|discriminate].
  destruct (eof f); [|discriminate].
  destruct (parse_prefix_and_flag (getopt_returns inv) initial_options)
    as [_ Hf].
  fold (parsed inv) in Hf; rewrite Hw in Hf; rewrite Hf in Hm.
  cbn [initial_options position_output_flag Z.eqb negb] in Hm.
  destruct classify as [st'|] eqn:E; [|discriminate].
  inversion Hm; subst; exact (silent_run _ _ _ _ _ _ E).
Qed.

Lemma option_code_none (r : getopt_return) :
  option_code r = None ->
  asks_help r = false /\ lacks_prefix r = false /\ is_invalid r = false.
Proof.
  unfold option_code.
  destruct (asks_help r), (lacks_prefix r), (is_invalid r);
    try discriminate; auto.
Qed.

Lemma harmless_options (rs : list getopt_return) :
  Forall (fun r => option_code r = None) rs ->
  forall o, helpflag (fold_left parse_option rs o) = helpflag o.
Proof.
  induction 1 as [|r rs Hr Hrs IH]; intros o; [reflexivity|].
  cbn [fold_left]; rewrite IH.
  apply option_code_none in Hr; destruct Hr as (Ha & Hl & Hi).
  destruct (parse_option_helpflag o r)
    as [(H & _)|[[_ H]|[[_ H]|[_ H]]]]; congruence.
Qed.

Lemma failing_option (o : options) (r : getopt_return) (k : Z) :
  option_code r = Some k -> helpflag (parse_option o r) = k /\ k <> 0.
Proof.
  unfold option_code; intros H.
  destruct r as [[|]|v arg];
    cbn [parse_option asks_help lacks_prefix is_invalid helpflag] in *;
    try (inversion H; subst; split; [reflexivity|lia]); try discriminate.
  revert H.
  change (char_code "h") with 104; change (char_code "o") with 111;
    change (char_code "p") with 112.
  destruct (Z.eqb_spec v 0), (Z.eqb_spec v 104), (Z.eqb_spec v 111),
    (Z.eqb_spec v 112); try lia; destruct arg; cbn [negb andb helpflag];
    intros H; inversion H; subst; split; reflexivity || lia.
Qed.

(** X16: when options fail, the exit code is that of the last failing
    option on the command line, provided the input file opens. *)
Theorem last_failing_option_decides (rs1 rs2 : list getopt_return)
  (r : getopt_return) (k : Z) (f : ifstream) :
  option_code r = Some k ->
  Forall (fun r' => option_code r' = None) rs2 ->
  main (mkInvocation (rs1 ++ r :: rs2) (Opened f)) = Return k UsageText.
Proof.
  intros Hr Hrs; unfold main; cbn [getopt_returns argument].
  rewrite fold_left_app; cbn [fold_left].
  rewrite (harmless_options rs2 Hrs).
  destruct (failing_option (fold_left parse_option rs1 initial_options) r k Hr)
    as [-> Hk].
  destruct (Z.eqb_spec k 0); [contradiction|reflexivity].
Qed.

(** X17: a missing or unreadable input path decides the exit code
    whatever the options are, a help request included. *)
Theorem operand_failure_decides (rs : list getopt_return) :
  main (mkInvocation rs NoOperand) = Return 6 UsageText /\
  main (mkInvocation rs Unreadable) = Return 5 UsageText.
Proof. split; reflexivity. Qed.

(** ** Whole invocations *)

Lemma main_reads (inv : invocation) (f : ifstream) :
  Forall (fun r => option_code r = None) (getopt_returns inv) ->
  argument inv = Opened f -> eof f = true ->
  main inv =
    match classify (true_one (loaded inv)) (true_two (loaded inv))
            (test_one (loaded inv)) (test_two (loaded inv))
            (negb (position_output_flag (parsed inv) =? 0)) with
    | Some st => Return 0 (Results st)
    | None => Undefined
    end.
Proof.
  intros Ho Ha He; rewrite main_result, Ha, He.
  unfold parsed at 1; now rewrite (harmless_options _ Ho).
Qed.

(** X18: an input without a header line, the empty file included, is
    reported with exit code 0, all counters at zero and no event line. *)
Theorem headerless_input_reports_zero (inv : invocation) (f : ifstream) :
  Forall (fun r => option_code r = None) (getopt_returns inv) ->
  argument inv = Opened f -> eof f = true ->
  Forall (fun l => is_header l = false) (buffers f) ->
  main inv = Return 0 (Results initial_state).
Proof.
  intros Ho Ha He Hb; rewrite (main_reads inv f Ho Ha He).
  assert (E : loaded inv = initial_alignment).
  { unfold loaded, read_alignment; rewrite Ha; cbn [input_alignment].
    now apply read_headerless. }
  rewrite E; reflexivity.
Qed.

(** X19: run without a [-p] option on an input whose first record has
    two or more characters, [main] subscripts the empty first test
    haplotype beyond its end. *)
Theorem missing_prefix_option_undefined (inv : invocation) (f : ifstream) :
  Forall (fun r => option_code r = None) (getopt_returns inv) ->
  prefix_args (getopt_returns inv) = [] ->
  argument inv = Opened f -> eof f = true ->
  (2 <= String.length (true_one (read_lines "" (buffers f) initial_alignment)))%nat ->
  main inv = Undefined.
Proof.
  intros Ho Hp Ha He Hl; rewrite (main_reads inv f Ho Ha He).
  assert (E : loaded inv = read_lines "" (buffers f) initial_alignment).
  { unfold loaded, read_alignment; rewrite Ha; cbn [input_alignment].
    destruct (parse_prefix_and_flag (getopt_returns inv) initial_options)
      as [Hq _].
    fold (parsed inv) in Hq; rewrite Hq, Hp; reflexivity. }
  rewrite E; clear E.
  pose proof (empty_prefix_test_slots (buffers f)) as Hs.
  unfold test_slots, test_one_slot, empty_slots in Hs.
  apply pair_equal_spec in Hs; destruct Hs as [Hs _].
  apply pair_equal_spec in Hs; destruct Hs as [_ Hs].
  set (a := read_lines "" (buffers f) initial_alignment) in *.
  unfold classify; rewrite (iterations_undefined _ _ _ _ _ 1%nat); auto.
  right; rewrite Hs; apply subscript_beyond; cbn; lia.
Qed.

(** ** The prefix option without its argument *)


(** ** The further properties on concrete inputs *)

Lemma counters_within_columns_witness :
  exists st, classify "ACT" "AGA" "ACA" "AGT" false = Some st /\
    Forall (fun c => 0 <= c <= Z.of_nat (String.length "ACT")) (counters st) /\
    is_phase_id (test_one_id st) /\ is_phase_id (test_two_id st).
Proof.
  apply (counters_within_columns "ACT" "AGA" "ACA" "AGT" false); concrete.
Defined.

Lemma column_adds_at_most_one_witness :
  exists st st', processed "A" "A" "-" "A" false 0 st st' /\
    Forall2 (fun c c' => c' = c \/ c' = c + 1) (counters st) (counters st').
Proof.
  apply (column_adds_at_most_one "A" "A" "-" "A" false);
    first [unfold in_range; cbn; lia | cbn; lia].
Defined.

Lemma event_lines_match_counters_witness :
  exists st, classify "ACT" "AGA" "ACA" "AGT" true = Some st /\
    lines_match_counters st.
Proof.
  apply (event_lines_match_counters "ACT" "AGA" "ACA" "AGT"); concrete.
Defined.

Lemma event_lines_in_column_order_witness :
  Forall (fun p => 1 <= p <= Z.of_nat 2)
    (map position_of (cout bad_call_state)) /\
  StronglySorted Z.le (map position_of (cout bad_call_state)).
Proof.
  apply (event_lines_in_column_order "AC" "AG" "AT" "AC" true 2);
    reflexivity.
Defined.

Lemma exact_haplotypes_score_zero_witness :
  (exists st, classify "ACG-T" "AGG-A" "ACG-T" "AGG-A" true = Some st /\
     counters st = zero_counters) /\
  (exists st, classify "ACG-T" "AGG-A" "AGG-A" "ACG-T" true = Some st /\
     counters st = zero_counters).
Proof.
  apply (exact_haplotypes_score_zero "ACG-T" "AGG-A" true); cbn; lia.
Defined.

Lemma counters_by_column_kind_witness :
  exists st, classify "ACT" "AGA" "ACA" "AGT" false = Some st /\
    test_one_switches st + test_one_bad_calls st <=
      het_snp_columns "ACT" "AGA" (String.length "ACT") /\
    test_two_switches st + test_two_bad_calls st <=
      het_snp_columns "ACT" "AGA" (String.length "ACT") /\
    test_one_false_snps st + test_two_false_snps st +
      test_one_false_indels st + test_two_false_indels st <=
      Z.of_nat (String.length "ACT") -
      het_snp_columns "ACT" "AGA" (String.length "ACT").
Proof.
  apply (counters_by_column_kind "ACT" "AGA" "ACA" "AGT" false); concrete.
Defined.

Lemma longer_sequences_ignored_witness :
  classify "AC" ("AG" ++ "TT") ("AG" ++ "T") ("AC" ++ "") false =
  classify "AC" "AG" "AG" "AC" false.
Proof.
  apply (longer_sequences_ignored "AC" "AG" "AG" "AC" "TT" "T" "" false);
    cbn; lia.
Defined.

Lemma wrapping_irrelevant_witness :
  read_lines "hapT"
    ([">hapT_1"] ++ ("AC" ++ "GT")%string :: [">asm1"; "ACGT"])%list
    initial_alignment =
  read_lines "hapT" ([">hapT_1"] ++ "AC" :: "GT" :: [">asm1"; "ACGT"])%list
    initial_alignment.
Proof.
  apply (wrapping_irrelevant "hapT" [">hapT_1"] [">asm1"; "ACGT"] "AC" "GT");
    reflexivity.
Defined.

Lemma text_before_first_header_dropped_witness :
  read_lines "hapT" (["junk"; ""] ++ [">hapT_1"; "AC"]) initial_alignment =
  read_lines "hapT" [">hapT_1"; "AC"] initial_alignment.
Proof.
  apply (text_before_first_header_dropped "hapT" ["junk"; ""]);
    repeat constructor.
Defined.

Lemma short_sequence_undefined_witness :
  classify "ACG" "A" "ACG" "ACG" false = None.
Proof.
  apply (short_sequence_undefined "ACG" "A" "ACG" "ACG" false).
  left; cbn; lia.
Defined.

Lemma no_event_lines_without_flag_witness : cout four_records_report = [].
Proof.
  apply (no_event_lines_without_flag
           (mkInvocation [Returned (char_code "p") (Some "hapT")]
              (Opened (mkStream four_records true))) 0);
    reflexivity.
Defined.

Lemma last_failing_option_decides_witness :
  main (mkInvocation
          ([Stored HelpFlag] ++ Returned (char_code "?") None ::
             [Returned (char_code "p") (Some "T")])
          (Opened (mkStream four_records true))) = Return 4 UsageText.
Proof.
  apply (last_failing_option_decides [Stored HelpFlag]
           [Returned (char_code "p") (Some "T")]);
    [reflexivity | repeat constructor].
Defined.

Lemma headerless_input_reports_zero_witness :
  main (mkInvocation [] (Opened (mkStream [""] true)))
  = Return 0 (Results initial_state).
Proof.
  apply (headerless_input_reports_zero _ (mkStream [""] true));
    first [reflexivity | repeat constructor].
Defined.

Lemma missing_prefix_option_undefined_witness :
  main (mkInvocation [] (Opened (mkStream four_records true))) = Undefined.
Proof.
  apply (missing_prefix_option_undefined _ (mkStream four_records true));
    first [reflexivity | (vm_compute; lia) | constructor].
Defined.

